(** * Iterator pattern examples: object model and traversal contract

    A shallow embedding of [behavioral_patterns/Iterator.py] and
    [test_iterator.py].  Python objects live in a heap indexed by
    locations; a method is a function from heaps to an outcome and a
    heap, so that aliasing of list objects (the shared default argument,
    several cursors over one list) is visible in the model. *)

From Stdlib Require Import ZArith String Ascii.
From stdpp Require Import gmap list.

(** ** Python runtime: outcomes, objects, heaps *)

Module Py.

Definition loc := positive.

Inductive exn :=
| StopIteration
| IndexError
| TypeError
| AttributeError
| OverflowError.

#[global] Instance exn_eq_dec : EqDecision exn.
Proof. solve_decision. Defined.

Inductive result (T : Type) :=
| Ok (v : T)
| Raise (e : exn).
Arguments Ok {T} v.
Arguments Raise {T} e.

(** Instances of the classes of the two iterator files, and list
    objects holding items of an opaque type [A]. *)
Inductive obj (A : Type) :=
| PyList (items : list A)
| WordsCollectionObj (_collection : loc)
| AlphabeticalOrderIteratorObj (_collection : loc) (_reverse : bool) (_position : Z)
| CollectionCalendarDaysObj (_collection : loc)
| CalendarIteratorObj (_collection : loc) (_position : Z).
Arguments PyList {A} items.
Arguments WordsCollectionObj {A} _collection.
Arguments AlphabeticalOrderIteratorObj {A} _collection _reverse _position.
Arguments CollectionCalendarDaysObj {A} _collection.
Arguments CalendarIteratorObj {A} _collection _position.

Abbreviation heap A := (gmap loc (obj A)).

(** A computation reads and writes the heap and either returns or
    raises; the heap reached when an exception is raised is kept. *)
Definition M (A T : Type) : Type := heap A -> result T * heap A.

Section Monad.
Context {A : Type}.

Definition ret {T} (v : T) : M A T := fun h => (Ok v, h).

Definition raise {T} (e : exn) : M A T := fun h => (Raise e, h).

Definition bind {T U} (m : M A T) (k : T -> M A U) : M A U :=
  fun h =>
    match m h with
    | (Ok v, h') => k v h'
    | (Raise e, h') => (Raise e, h')
    end.

(** [try: body except e: handler] *)
Definition try_except {T} (body : M A T) (e : exn) (handler : M A T) : M A T :=
  fun h =>
    match body h with
    | (Ok v, h') => (Ok v, h')
    | (Raise e', h') => if decide (e' = e) then handler h' else (Raise e', h')
    end.

(** Object creation: the new object gets a location not in use. *)
Definition alloc (o : obj A) : M A loc :=
  fun h => let l := fresh (dom h) in (Ok l, <[l := o]> h).

(** [seq[i]] on a Python list: a negative index counts from the end;
    an index outside [-len, len) is an [IndexError]. *)
Definition index (l : list A) (i : Z) : option A :=
  let n := Z.of_nat (length l) in
  let j := (if i <? 0 then i + n else i)%Z in
  if ((0 <=? j) && (j <? n))%Z then l !! Z.to_nat j else None.

Definition getitem (c : loc) (i : Z) : M A A :=
  fun h =>
    match h !! c with
    | Some (PyList l) =>
        match index l i with
        | Some v => (Ok v, h)
        | None => (Raise IndexError, h)
        end
    | _ => (Raise TypeError, h)
    end.

(** [lst.append(item)] *)
Definition list_append (c : loc) (item : A) : M A unit :=
  fun h =>
    match h !! c with
    | Some (PyList l) => (Ok tt, <[c := PyList (l ++ [item])]> h)
    | _ => (Raise AttributeError, h)
    end.

(** [lst.extend(items)], [items] being a list object too (possibly
    the same one). *)
Definition list_extend (c : loc) (items : loc) : M A unit :=
  fun h =>
    match h !! c with
    | Some (PyList l) =>
        match h !! items with
        | Some (PyList l') => (Ok tt, <[c := PyList (l ++ l')]> h)
        | _ => (Raise TypeError, h)
        end
    | _ => (Raise AttributeError, h)
    end.

End Monad.

(** [n] successive pulls of a stateful producer, every outcome recorded. *)
Fixpoint iterate {S R : Type} (step : S -> R * S) (n : nat) (s : S) : list R * S :=
  match n with
  | O => ([], s)
  | S n' =>
      let '(r, s1) := step s in
      let '(rs, s2) := iterate step n' s1 in
      (r :: rs, s2)
  end.

(** [n] successive calls of [next(it)]. *)
Definition pull {A : Type} (next : loc -> M A A) (it : loc) (n : nat) (h : heap A)
  : list (result A) * heap A :=
  iterate (next it) n h.

(** Calls of [next] on several cursors, in the order given by
    [sched]; every call is recorded with the cursor it was made on. *)
Fixpoint run {A : Type} (next : loc -> M A A) (sched : list loc) (h : heap A)
  : list (loc * result A) * heap A :=
  match sched with
  | [] => ([], h)
  | it :: sched' =>
      let '(r, h1) := next it h in
      let '(rs, h2) := run next sched' h1 in
      ((it, r) :: rs, h2)
  end.

(** The outcomes a cursor saw in a recorded run, and the number of
    calls a schedule makes on it. *)
Definition results_of {A : Type} (it : loc) (tr : list (loc * result A)) : list (result A) :=
  (filter (fun x => x.1 = it) tr).*2.

Definition calls_on (it : loc) (sched : list loc) : nat :=
  length (filter (fun x => x = it) sched).

(** The outcomes of [n] calls as the value of a computation. *)
Definition pulls {A : Type} (next : loc -> M A A) (it : loc) (n : nat)
  : M A (list (result A)) :=
  fun h => let '(rs, h') := pull next it n h in (Ok rs, h').

(** [for x in xs: f(x)] over a literal sequence of arguments. *)
Fixpoint for_each {A T : Type} (f : T -> M A unit) (xs : list T) : M A unit :=
  match xs with
  | [] => ret tt
  | x :: xs' => bind (f x) (fun _ => for_each f xs')
  end.

Notation "x <~ e ;; k" := (bind e (fun x => k))
  (at level 100, e at next level, right associativity).
Notation "e ;;; k" := (bind e (fun _ => k))
  (at level 100, right associativity).

End Py.
Import Py.

(** ** behavioral_patterns/Iterator.py *)

Module AlphabeticalOrderIterator.
Section Methods.
Context {A : Type}.

Definition get_collection (self : loc) : M A loc :=
  fun h =>
    match h !! self with
    | Some (AlphabeticalOrderIteratorObj c _ _) => (Ok c, h)
    | _ => (Raise AttributeError, h)
    end.

Definition get_reverse (self : loc) : M A bool :=
  fun h =>
    match h !! self with
    | Some (AlphabeticalOrderIteratorObj _ r _) => (Ok r, h)
    | _ => (Raise AttributeError, h)
    end.

Definition get_position (self : loc) : M A Z :=
  fun h =>
    match h !! self with
    | Some (AlphabeticalOrderIteratorObj _ _ p) => (Ok p, h)
    | _ => (Raise AttributeError, h)
    end.

Definition set_position (self : loc) (p : Z) : M A unit :=
  fun h =>
    match h !! self with
    | Some (AlphabeticalOrderIteratorObj c r _) =>
        (Ok tt, <[self := AlphabeticalOrderIteratorObj c r p]> h)
    | _ => (Raise AttributeError, h)
    end.

(** [AlphabeticalOrderIterator(collection, reverse)]: the instance is
    created and [__init__] stores its three attributes. *)
Definition __init__ (collection : loc) (reverse : bool) : M A loc :=
  alloc (AlphabeticalOrderIteratorObj collection reverse
           (if reverse then -1 else 0)%Z).

Definition __next__ (self : loc) : M A A :=
  value <~ try_except
    (c <~ get_collection self ;;
     p <~ get_position self ;;
     value <~ getitem c p ;;
     p' <~ get_position self ;;
     r <~ get_reverse self ;;
     set_position self (p' + (if r then -1 else 1))%Z ;;;
     ret value)
    IndexError
    (raise StopIteration) ;;
  ret value.
End Methods.
End AlphabeticalOrderIterator.

Module WordsCollection.
Section Methods.
Context {A : Type}.

(** The [def __init__(self, collection=[])] statement evaluates its
    default once, when the class body runs, and keeps the list
    object so created in the function's defaults. *)
Record defaults := { collection_default : loc }.

Definition def___init__ : M A defaults :=
  d <~ alloc (PyList []) ;;
  ret {| collection_default := d |}.

(** [WordsCollection(collection)], [None] standing for the omitted
    argument. *)
Definition __init__ (dflt : defaults) (collection : option loc) : M A loc :=
  alloc (WordsCollectionObj
           (match collection with
            | Some c => c
            | None => collection_default dflt
            end)).

Definition get_collection (self : loc) : M A loc :=
  fun h =>
    match h !! self with
    | Some (WordsCollectionObj c) => (Ok c, h)
    | _ => (Raise AttributeError, h)
    end.

Definition __iter__ (self : loc) : M A loc :=
  c <~ get_collection self ;;
  AlphabeticalOrderIterator.__init__ c false.

Definition get_reverse_iterator (self : loc) : M A loc :=
  c <~ get_collection self ;;
  AlphabeticalOrderIterator.__init__ c true.

Definition add_item (self : loc) (item : A) : M A unit :=
  c <~ get_collection self ;;
  list_append c item.
End Methods.
End WordsCollection.

(** ** test_iterator.py *)

Module CalendarIterator.
Section Methods.
Context {A : Type}.

Definition get_collection (self : loc) : M A loc :=
  fun h =>
    match h !! self with
    | Some (CalendarIteratorObj c _) => (Ok c, h)
    | _ => (Raise AttributeError, h)
    end.

Definition get_position (self : loc) : M A Z :=
  fun h =>
    match h !! self with
    | Some (CalendarIteratorObj _ p) => (Ok p, h)
    | _ => (Raise AttributeError, h)
    end.

Definition set_position (self : loc) (p : Z) : M A unit :=
  fun h =>
    match h !! self with
    | Some (CalendarIteratorObj c _) => (Ok tt, <[self := CalendarIteratorObj c p]> h)
    | _ => (Raise AttributeError, h)
    end.

Definition __init__ (collection : loc) : M A loc :=
  alloc (CalendarIteratorObj collection 0%Z).

Definition __next__ (self : loc) : M A A :=
  value <~ try_except
    (c <~ get_collection self ;;
     p <~ get_position self ;;
     value <~ getitem c p ;;
     p' <~ get_position self ;;
     set_position self (p' + 1)%Z ;;;
     ret value)
    IndexError
    (raise StopIteration) ;;
  ret value.
End Methods.
End CalendarIterator.

Module CollectionCalendarDays.
Section Methods.
Context {A : Type}.

Record defaults := { collection_default : loc }.

Definition def___init__ : M A defaults :=
  d <~ alloc (PyList []) ;;
  ret {| collection_default := d |}.

Definition __init__ (dflt : defaults) (collection : option loc) : M A loc :=
  alloc (CollectionCalendarDaysObj
           (match collection with
            | Some c => c
            | None => collection_default dflt
            end)).

Definition get_collection (self : loc) : M A loc :=
  fun h =>
    match h !! self with
    | Some (CollectionCalendarDaysObj c) => (Ok c, h)
    | _ => (Raise AttributeError, h)
    end.

Definition __iter__ (self : loc) : M A loc :=
  c <~ get_collection self ;;
  CalendarIterator.__init__ c.

Definition add_item (self : loc) (item : A) : M A unit :=
  c <~ get_collection self ;;
  list_append c item.

Definition add_items (self : loc) (items : loc) : M A unit :=
  c <~ get_collection self ;;
  list_extend c items.
End Methods.
End CollectionCalendarDays.

(** ** The built-in [next]

    [next(it)] calls the [__next__] of the class of [it]; an object of
    a class without [__next__] is not an iterator. *)

Definition next {A : Type} (it : loc) : M A A :=
  fun h =>
    match h !! it with
    | Some (AlphabeticalOrderIteratorObj _ _ _) => AlphabeticalOrderIterator.__next__ it h
    | Some (CalendarIteratorObj _ _) => CalendarIterator.__next__ it h
    | _ => (Raise TypeError, h)
    end.

(** ** The [datetime] values used by the range-bounded generator

    A [date] is represented by its proleptic Gregorian ordinal, the
    value of [toordinal()]: day 1 is 0001-01-01 and the last
    representable day, 9999-12-31, is [_MAXORDINAL].  Order and day
    arithmetic on dates are those of the ordinals; year, month and day
    are recovered from the ordinal when a date is formatted. *)

Module datetime.
Local Open Scope Z_scope.

Definition MINYEAR : Z := 1.
Definition MAXYEAR : Z := 9999.
Definition _MAXORDINAL : Z := 3652059.

Record date := { toordinal : Z }.

Record timedelta := { days : Z }.

Definition date_valid (d : date) : Prop := 1 <= toordinal d <= _MAXORDINAL.

Definition _DAYS_IN_MONTH : list Z :=
  [-1; 31; 28; 31; 30; 31; 30; 31; 31; 30; 31; 30; 31].

Definition _DAYS_BEFORE_MONTH : list Z :=
  [-1; 0; 31; 59; 90; 120; 151; 181; 212; 243; 273; 304; 334].

Definition _is_leap (year : Z) : bool :=
  (year mod 4 =? 0) && (negb (year mod 100 =? 0) || (year mod 400 =? 0)).

Definition _days_before_year (year : Z) : Z :=
  let y := year - 1 in y * 365 + y / 4 - y / 100 + y / 400.

Definition _days_in_month (year month : Z) : Z :=
  if (month =? 2) && _is_leap year then 29
  else nth (Z.to_nat month) _DAYS_IN_MONTH 0.

Definition _days_before_month (year month : Z) : Z :=
  nth (Z.to_nat month) _DAYS_BEFORE_MONTH 0
  + (if (2 <? month) && _is_leap year then 1 else 0).

Definition _ymd2ord (year month day : Z) : Z :=
  _days_before_year year + _days_before_month year month + day.

Definition _DI400Y : Z := _days_before_year 401.
Definition _DI100Y : Z := _days_before_year 101.
Definition _DI4Y : Z := _days_before_year 5.

Definition _ord2ymd (n : Z) : Z * Z * Z :=
  let n := n - 1 in
  let n400 := n / _DI400Y in
  let n := n mod _DI400Y in
  let year := n400 * 400 + 1 in
  let n100 := n / _DI100Y in
  let n := n mod _DI100Y in
  let n4 := n / _DI4Y in
  let n := n mod _DI4Y in
  let n1 := n / 365 in
  let n := n mod 365 in
  let year := year + n100 * 100 + n4 * 4 + n1 in
  if (n1 =? 4) || (n100 =? 4) then (year - 1, 12, 31)
  else
    let leapyear := (n1 =? 3) && (negb (n4 =? 24) || (n100 =? 3)) in
    let month := Z.shiftr (n + 50) 5 in
    let preceding :=
      nth (Z.to_nat month) _DAYS_BEFORE_MONTH 0
      + (if (2 <? month) && leapyear then 1 else 0) in
    if n <? preceding then
      let month := month - 1 in
      let preceding :=
        preceding
        - (nth (Z.to_nat month) _DAYS_IN_MONTH 0
           + (if (month =? 2) && leapyear then 1 else 0)) in
      (year, month, n - preceding + 1)
    else (year, month, n - preceding + 1).

(** [date(year, month, day)]; [None] stands for the [ValueError] of a
    day that does not exist. *)
Definition date_of (year month day : Z) : option date :=
  if (MINYEAR <=? year) && (year <=? MAXYEAR)
     && (1 <=? month) && (month <=? 12)
     && (1 <=? day) && (day <=? _days_in_month year month)
  then Some {| toordinal := _ymd2ord year month day |}
  else None.

(** [a <= b] *)
Definition date_le (a b : date) : bool := toordinal a <=? toordinal b.

(** [d + delta]: a result outside the representable days is an
    [OverflowError]. *)
Definition date_add (d : date) (delta : timedelta) : result date :=
  let o := toordinal d + days delta in
  if (0 <? o) && (o <=? _MAXORDINAL) then Ok {| toordinal := o |}
  else Raise OverflowError.

(** Month names of the C locale. *)
Definition month_name (month : Z) : string :=
  nth (Z.to_nat month)
    [""; "January"; "February"; "March"; "April"; "May"; "June"; "July";
     "August"; "September"; "October"; "November"; "December"]%string
    ""%string.

Definition digit (d : Z) : ascii := ascii_of_nat (48 + Z.to_nat d).

(** [%d]: the day of the month as two decimal digits. *)
Definition two_digits (d : Z) : string :=
  String (digit (d / 10)) (String (digit (d mod 10)) EmptyString).

(** [d.strftime(fmt)] for formats made of [%d], [%B] and literal text. *)
Fixpoint strftime_ymd (month day : Z) (fmt : string) : string :=
  match fmt with
  | EmptyString => EmptyString
  | String c rest =>
      match c, rest with
      | "%"%char, String "d"%char rest' =>
          String.append (two_digits day) (strftime_ymd month day rest')
      | "%"%char, String "B"%char rest' =>
          String.append (month_name month) (strftime_ymd month day rest')
      | _, _ => String c (strftime_ymd month day rest)
      end
  end.

Definition strftime (d : date) (fmt : string) : string :=
  let '(_, month, day) := _ord2ymd (toordinal d) in
  strftime_ymd month day fmt.

End datetime.

Module calendar_generator.
Import datetime.
Local Open Scope Z_scope.

(** A generator object of [calendar_generator_datetime]: not yet
    started, suspended at its [yield] with the values of the two local
    variables, or finished. *)
Inductive generator :=
| Created (start_calendar end_calendar : date)
| Suspended (start_calendar end_calendar : date)
| Finished.

(** Calling the generator function runs none of its body. *)
Definition calendar_generator_datetime (start_calendar end_calendar : date) : generator :=
  Created start_calendar end_calendar.

(** The [while] test and the [yield] that follows it. *)
Definition while_test (start_calendar end_calendar : date) : result string * generator :=
  if date_le start_calendar end_calendar
  then (Ok (strftime start_calendar "%d %B"), Suspended start_calendar end_calendar)
  else (Raise StopIteration, Finished).

(** [next(g)]: run the body up to the next [yield], the end of the
    body or an exception. *)
Definition __next__ (g : generator) : result string * generator :=
  match g with
  | Created start_calendar end_calendar => while_test start_calendar end_calendar
  | Suspended start_calendar end_calendar =>
      match date_add start_calendar {| days := 1 |} with
      | Ok start_calendar' => while_test start_calendar' end_calendar
      | Raise e => (Raise e, Finished)
      end
  | Finished => (Raise StopIteration, Finished)
  end.

End calendar_generator.

(** * Vocabulary of the properties *)

Section Vocabulary.
Context {A : Type}.

(** The step a cursor takes after a successful read. *)
Definition advance (reverse : bool) : Z := if reverse then (-1)%Z else 1%Z.

(** What a call of [next] on a cursor object of shape [mk], moving by
    [step], can do in a heap [h]. *)
Inductive next_outcome (mk : loc -> Z -> obj A) (step : Z) (it : loc) (h : heap A)
  : result A * heap A -> Prop :=
| next_returns c p l v :
    h !! it = Some (mk c p) ->
    h !! c = Some (PyList l) ->
    index l p = Some v ->
    next_outcome mk step it h (Ok v, <[it := mk c (p + step)%Z]> h)
| next_stops c p l :
    h !! it = Some (mk c p) ->
    h !! c = Some (PyList l) ->
    index l p = None ->
    next_outcome mk step it h (Raise StopIteration, h)
| next_fails e :
    e <> StopIteration ->
    next_outcome mk step it h (Raise e, h).

(** The shapes of cursor object: the one of [AlphabeticalOrderIterator]
    in either direction, and the one of [CalendarIterator]. *)
Inductive cursor_shape : (loc -> Z -> obj A) -> Z -> Prop :=
| shape_alphabetical r :
    cursor_shape (fun c p => AlphabeticalOrderIteratorObj c r p) (advance r)
| shape_calendar :
    cursor_shape CalendarIteratorObj 1%Z.

(** The state a call of [next] leaves the cursor in, read off its
    outcome: [Exhausted] when it signalled the end, [Active] otherwise.
    A cursor on which no call was made yet is [Active]. *)
Inductive cursor_state := Active | Exhausted.

Definition state_after (r : result A) : cursor_state :=
  match r with
  | Raise StopIteration => Exhausted
  | _ => Active
  end.

Definition initial_state : cursor_state := Active.

Definition is_cursor (o : obj A) : Prop :=
  match o with
  | AlphabeticalOrderIteratorObj _ _ _ | CalendarIteratorObj _ _ => True
  | _ => False
  end.

(** Client programs of the traversal claims. *)

(** Append [items] to the container, take its default cursor and call
    [next] on it [n] times. *)
Definition words_forward (w : loc) (items : list A) (n : nat) : M A (list (result A)) :=
  for_each (WordsCollection.add_item w) items ;;;
  it <~ WordsCollection.__iter__ w ;;
  pulls next it n.

Definition words_backward (w : loc) (items : list A) (n : nat) : M A (list (result A)) :=
  for_each (WordsCollection.add_item w) items ;;;
  it <~ WordsCollection.get_reverse_iterator w ;;
  pulls next it n.

Definition calendar_forward (w : loc) (items : list A) (n : nat) : M A (list (result A)) :=
  for_each (CollectionCalendarDays.add_item w) items ;;;
  it <~ CollectionCalendarDays.__iter__ w ;;
  pulls next it n.

(** The class body runs, two containers are created without argument,
    an item is appended to the first, and a cursor of the second is
    asked for its first item. *)
Definition words_shared_default (x : A) : M A (loc * loc * A) :=
  dflt <~ WordsCollection.def___init__ ;;
  c1 <~ WordsCollection.__init__ dflt None ;;
  c2 <~ WordsCollection.__init__ dflt None ;;
  WordsCollection.add_item c1 x ;;;
  it <~ WordsCollection.__iter__ c2 ;;
  v <~ next it ;;
  ret (c1, c2, v).

Definition calendar_shared_default (x : A) : M A (loc * loc * A) :=
  dflt <~ CollectionCalendarDays.def___init__ ;;
  c1 <~ CollectionCalendarDays.__init__ dflt None ;;
  c2 <~ CollectionCalendarDays.__init__ dflt None ;;
  CollectionCalendarDays.add_item c1 x ;;;
  it <~ CollectionCalendarDays.__iter__ c2 ;;
  v <~ next it ;;
  ret (c1, c2, v).
End Vocabulary.

(** Concrete scenario of the drivers. *)

Module Scenario.
Local Open Scope string_scope.

(** The state after the class bodies have run and one container of each
    class has been created without arguments, as the drivers do. *)
Definition setup : M string (loc * loc) :=
  wd <~ WordsCollection.def___init__ ;;
  cd <~ CollectionCalendarDays.def___init__ ;;
  words <~ WordsCollection.__init__ wd None ;;
  days <~ CollectionCalendarDays.__init__ cd None ;;
  ret (words, days).

Definition words : loc := 3%positive.
Definition days : loc := 4%positive.
Definition heap0 : heap string := (setup ∅).2.

Definition three : list string := ["First"; "Second"; "Third"].

(** The list of [words] and the list of [days]. *)
Definition words_list : loc := 1%positive.
Definition days_list : loc := 2%positive.

(** The three items appended to [words], as the first driver does. *)
Definition heap3 : heap string :=
  (for_each (WordsCollection.add_item words) three heap0).2.

(** A default cursor taken from the still empty [words]. *)
Definition early_cursor : loc := 5%positive.
Definition heap_early : heap string := (WordsCollection.__iter__ words heap0).2.

(** A reverse cursor taken from [words] when it holds one item, after
    its first call of [next]. *)
Definition late_cursor : loc := 5%positive.
Definition heap_late : heap string :=
  let h1 := (WordsCollection.add_item words "First" heap0).2 in
  let h2 := (WordsCollection.get_reverse_iterator words h1).2 in
  (next late_cursor h2).2.

(** An order of calls on two cursors: [true] for the first one. *)
Definition order : list bool := [true; false; false; true; true; false; true; false].
End Scenario.

Module GeneratorSpec.
Import datetime calendar_generator.
Local Open Scope Z_scope.

(** The date whose ordinal is [o]. *)
Definition day (o : Z) : date := {| toordinal := o |}.

(** What ends a traversal up to [end_calendar]: the failed [while]
    test, or the failed increment when there is no later day. *)
Definition end_signal (end_calendar : date) : exn :=
  if toordinal end_calendar <? _MAXORDINAL then StopIteration else OverflowError.

(** The values a traversal from [s] to [e] is expected to produce. *)
Definition formatted_days (s e : date) : list (result string) :=
  (fun o => Ok (strftime (day o) "%d %B")) <$>
    seqZ (toordinal s) (toordinal e - toordinal s + 1).
End GeneratorSpec.

(** * The rest of the two iterator files *)

(** ** test_iterator.py: the wrapper generator

    [calendar_generator_collect] runs [for el in ccollection: yield el].
    The [for] statement takes the iterator of its argument when the
    generator is first pulled: the built-in iterator of a list, which
    holds the list and the index of the item to read next and reads
    the list as it is at each step; the cursor a container makes; or a
    cursor itself, which is its own iterator.  When the iterator
    signals the end the body returns, and a generator whose body has
    returned or raised is finished for good. *)

Module collect_generator.
Section Generator.
Context {A : Type}.

Inductive generator :=
| Created (ccollection : loc)
| InList (ccollection : loc) (it_index : nat)
| InCursor (it : loc)
| Finished.

Definition calendar_generator_collect (ccollection : loc) : generator :=
  Created ccollection.

(** One round of the loop over the built-in iterator of a list. *)
Definition list_step (c : loc) (i : nat) (h : heap A)
  : result A * (generator * heap A) :=
  match h !! c with
  | Some (PyList l) =>
      match l !! i with
      | Some el => (Ok el, (InList c (S i), h))
      | None => (Raise StopIteration, (Finished, h))
      end
  | _ => (Raise TypeError, (Finished, h))
  end.

(** One round of the loop over a cursor. *)
Definition cursor_step (it : loc) (h : heap A)
  : result A * (generator * heap A) :=
  match next it h with
  | (Ok el, h') => (Ok el, (InCursor it, h'))
  | (Raise e, h') => (Raise e, (Finished, h'))
  end.

(** [next(g)] *)
Definition __next__ (st : generator * heap A) : result A * (generator * heap A) :=
  let '(g, h) := st in
  match g with
  | Created c =>
      match h !! c with
      | Some (PyList _) => list_step c 0 h
      | Some (WordsCollectionObj _) =>
          match WordsCollection.__iter__ c h with
          | (Ok it, h1) => cursor_step it h1
          | (Raise e, h1) => (Raise e, (Finished, h1))
          end
      | Some (CollectionCalendarDaysObj _) =>
          match CollectionCalendarDays.__iter__ c h with
          | (Ok it, h1) => cursor_step it h1
          | (Raise e, h1) => (Raise e, (Finished, h1))
          end
      | Some (AlphabeticalOrderIteratorObj _ _ _)
      | Some (CalendarIteratorObj _ _) => cursor_step c h
      | None => (Raise TypeError, (Finished, h))
      end
  | InList c i => list_step c i h
  | InCursor it => cursor_step it h
  | Finished => (Raise StopIteration, (Finished, h))
  end.
End Generator.
End collect_generator.

(** ** The consumers the drivers use

    [sep.join(iterable)] over an iterable that is no list first makes
    the list of its items: it calls [next] on the iterator until
    [StopIteration], and lets any other exception through.  The number
    of calls is not known beforehand; [fuel] bounds it, and [None]
    means that the bound was reached before the end. *)

Section Consumers.
Context {A : Type}.

Fixpoint drain (fuel : nat) (it : loc) (acc : list A) (h : heap A)
  : option (result (list A) * heap A) :=
  match fuel with
  | O => None
  | S fuel' =>
      match next it h with
      | (Ok v, h') => drain fuel' it (acc ++ [v]) h'
      | (Raise StopIteration, h') => Some (Ok acc, h')
      | (Raise e, h') => Some (Raise e, h')
      end
  end.
End Consumers.

(** [sep.join(it)] for a cursor [it], which is its own iterator. *)
Definition join_cursor (fuel : nat) (sep : string) (it : loc) (h : heap string)
  : option (result string * heap string) :=
  match drain fuel it [] h with
  | Some (Ok items, h') => Some (Ok (String.concat sep items), h')
  | Some (Raise e, h') => Some (Raise e, h')
  | None => None
  end.

(** [sep.join(collection)] for a [WordsCollection]. *)
Definition join_words (fuel : nat) (sep : string) (w : loc) (h : heap string)
  : option (result string * heap string) :=
  match WordsCollection.__iter__ w h with
  | (Ok it, h1) => join_cursor fuel sep it h1
  | (Raise e, h1) => Some (Raise e, h1)
  end.

(** [sep.join(collection.get_reverse_iterator())] *)
Definition join_words_reversed (fuel : nat) (sep : string) (w : loc) (h : heap string)
  : option (result string * heap string) :=
  match WordsCollection.get_reverse_iterator w h with
  | (Ok it, h1) => join_cursor fuel sep it h1
  | (Raise e, h1) => Some (Raise e, h1)
  end.

(** [sep.join(collection)] for a [CollectionCalendarDays]. *)
Definition join_days (fuel : nat) (sep : string) (w : loc) (h : heap string)
  : option (result string * heap string) :=
  match CollectionCalendarDays.__iter__ w h with
  | (Ok it, h1) => join_cursor fuel sep it h1
  | (Raise e, h1) => Some (Raise e, h1)
  end.

(** ** test_iterator.py: the list of days the driver builds

    [[(start + timedelta(days=day)).strftime('%d %B') for day in range(n)]],
    for any first day and any [n]. *)

Module calendar_driver.
Import datetime.
Local Open Scope Z_scope.

Fixpoint comprehension (start_calendar : date) (range : list Z) : result (list string) :=
  match range with
  | [] => Ok []
  | day :: range' =>
      match date_add start_calendar {| days := day |} with
      | Ok d =>
          match comprehension start_calendar range' with
          | Ok rest => Ok (strftime d "%d %B" :: rest)
          | Raise e => Raise e
          end
      | Raise e => Raise e
      end
  end.

Definition collection_calendar_days_datetime (start_calendar : date) (n : Z)
  : result (list string) :=
  comprehension start_calendar (seqZ 0 n).
End calendar_driver.

(** ** Clients that append while a cursor is in use *)

Section AppendingClients.
Context {A : Type}.

(** Take the default cursor of a container, call [next] on it [k]
    times, append [items] to the container, and call [next] [n] more
    times. *)
Definition words_forward_with_appends (w : loc) (k : nat) (items : list A) (n : nat)
  : M A (list (result A) * list (result A)) :=
  it <~ WordsCollection.__iter__ w ;;
  before <~ pulls next it k ;;
  for_each (WordsCollection.add_item w) items ;;;
  after <~ pulls next it n ;;
  ret (before, after).

(** The same with the reverse cursor. *)
Definition words_backward_with_appends (w : loc) (k : nat) (items : list A) (n : nat)
  : M A (list (result A) * list (result A)) :=
  it <~ WordsCollection.get_reverse_iterator w ;;
  before <~ pulls next it k ;;
  for_each (WordsCollection.add_item w) items ;;;
  after <~ pulls next it n ;;
  ret (before, after).

(** A container made over a list of the caller, and an item appended
    to it. *)
Definition words_over_list (dflt : WordsCollection.defaults) (lst : loc) (x : A)
  : M A loc :=
  w <~ WordsCollection.__init__ dflt (Some lst) ;;
  WordsCollection.add_item w x ;;;
  ret w.

Definition days_over_list (dflt : CollectionCalendarDays.defaults) (lst : loc) (x : A)
  : M A loc :=
  w <~ CollectionCalendarDays.__init__ dflt (Some lst) ;;
  CollectionCalendarDays.add_item w x ;;;
  ret w.
End AppendingClients.

(** ** Further states of the drivers' scenario *)

Module FurtherScenario.
Import Scenario.
Local Open Scope string_scope.

(** The cursors of either direction over [words] holding the three
    items; each is the next object made in [heap3]. *)
Definition cursor : loc := 5%positive.
Definition heap_forward : heap string := (WordsCollection.__iter__ words heap3).2.
Definition heap_backward : heap string :=
  (WordsCollection.get_reverse_iterator words heap3).2.

(** The three items appended to [days], and a cursor over it. *)
Definition heap_days : heap string :=
  (for_each (CollectionCalendarDays.add_item days) three heap0).2.
Definition heap_days_cursor : heap string :=
  (CollectionCalendarDays.__iter__ days heap_days).2.


(** A list of the caller holding the three items. *)
Definition caller_list : loc := 5%positive.
Definition heap_caller : heap string := (alloc (PyList three) heap0).2.

(** The defaults the class bodies made in [heap0]. *)
Definition words_defaults : WordsCollection.defaults :=
  {| WordsCollection.collection_default := words_list |}.
Definition days_defaults : CollectionCalendarDays.defaults :=
  {| CollectionCalendarDays.collection_default := days_list |}.

(** The wrapper generator over the still empty list of [words], after
    its first pull. *)
Definition spent_generator : collect_generator.generator * heap string :=
  (collect_generator.__next__
     (collect_generator.calendar_generator_collect words_list, heap0)).2.
End FurtherScenario.

(** * structural_patterns/Decorator_Python.py: the component classes

    A component is made by the constructors only and is not changed
    afterwards, so it is the tree of its wrappers.  [operation] returns a
    string, or [None] for the base [Component], whose method body is
    [pass]. *)

Module Decorator_Python.
Local Open Scope string_scope.

Inductive component :=
| Component
| ConcreteComponent
| Decorator (_component : component)
| ConcreteDecoratorA (_component : component)
| ConcreteDecoratorB (_component : component).

(** The text a field of an f-string shows for a value: a string as it
    is, [None] by its name. *)
Definition format (v : option string) : string :=
  match v with
  | Some s => s
  | None => "None"
  end.

Fixpoint operation (self : component) : option string :=
  match self with
  | Component => None
  | ConcreteComponent => Some "ConcreteComponent"
  | Decorator c => operation c
  | ConcreteDecoratorA c => Some ("ConcreteDecoratorA(" ++ format (operation c) ++ ")")
  | ConcreteDecoratorB c => Some ("ConcreteDecoratorB(" ++ format (operation c) ++ ")")
  end.

(** What [client_code] prints. *)
Definition client_code (c : component) : string :=
  "RESULT: " ++ format (operation c).

(** The component without its base [Decorator] wrappers. *)
Fixpoint strip (c : component) : component :=
  match c with
  | Component => Component
  | ConcreteComponent => ConcreteComponent
  | Decorator c' => strip c'
  | ConcreteDecoratorA c' => ConcreteDecoratorA (strip c')
  | ConcreteDecoratorB c' => ConcreteDecoratorB (strip c')
  end.
End Decorator_Python.

(** Unfolding of a call of [next] up to the lookups of the heap. *)
Ltac unfold_next Hit :=
  unfold next, AlphabeticalOrderIterator.__next__, CalendarIterator.__next__,
    bind, try_except,
    AlphabeticalOrderIterator.get_collection, AlphabeticalOrderIterator.get_position,
    CalendarIterator.get_collection, CalendarIterator.get_position, getitem;
  repeat (rewrite Hit; simpl).

(** * Properties *)

(** ** List indexing *)

Section Index.
Context {A : Type}.
Implicit Types (l : list A) (i : Z).
Local Open Scope Z_scope.

Lemma index_nonneg l i : 0 <= i -> index l i = l !! Z.to_nat i.
Proof.
  intros Hi. unfold index.
  destruct (Z.ltb_spec i 0) as [?|_]; [lia|].
  destruct (Z.leb_spec 0 i) as [_|?]; [|lia].
  destruct (Z.ltb_spec i (Z.of_nat (length l))) as [?|Hge]; simpl; [done|].
  symmetry. apply lookup_ge_None. lia.
Qed.

Lemma index_neg l i :
  i < 0 ->
  index l i = if 0 <=? i + Z.of_nat (length l)
              then l !! Z.to_nat (i + Z.of_nat (length l)) else None.
Proof.
  intros Hi. unfold index.
  destruct (Z.ltb_spec i 0) as [_|?]; [|lia].
  destruct (Z.leb_spec 0 (i + Z.of_nat (length l))); simpl; [|done].
  destruct (Z.ltb_spec (i + Z.of_nat (length l)) (Z.of_nat (length l))); [done|lia].
Qed.

(** The indices that do not raise are exactly those of [-len, len). *)
Lemma index_is_Some l i :
  is_Some (index l i) <-> - Z.of_nat (length l) <= i < Z.of_nat (length l).
Proof.
  destruct (Z.lt_ge_cases i 0) as [Hneg|Hpos].
  - rewrite index_neg by done.
    destruct (Z.leb_spec 0 (i + Z.of_nat (length l))).
    + rewrite lookup_lt_is_Some. lia.
    + split; [intros [? ?]; done | lia].
  - rewrite index_nonneg by lia. rewrite lookup_lt_is_Some. lia.
Qed.

Lemma index_None l i :
  index l i = None <-> ~ (- Z.of_nat (length l) <= i < Z.of_nat (length l)).
Proof. rewrite <- index_is_Some, eq_None_not_Some. done. Qed.
End Index.

(** ** One call of [__next__] *)

Section Next.
Context {A : Type}.
Implicit Types (h : heap A) (l : list A) (it c : loc) (p : Z).
Local Open Scope Z_scope.

Lemma AlphabeticalOrderIterator_next_eq h it c r p l :
  h !! it = Some (AlphabeticalOrderIteratorObj c r p) ->
  h !! c = Some (PyList l) ->
  next it h =
    match index l p with
    | Some v => (Ok v, <[it := AlphabeticalOrderIteratorObj c r (p + advance r)]> h)
    | None => (Raise StopIteration, h)
    end.
Proof.
  intros Hit Hc. unfold next. rewrite Hit.
  unfold AlphabeticalOrderIterator.__next__, bind, try_except, ret, raise,
    AlphabeticalOrderIterator.get_collection, AlphabeticalOrderIterator.get_position,
    AlphabeticalOrderIterator.get_reverse, AlphabeticalOrderIterator.set_position,
    getitem.
  repeat (rewrite Hit; simpl). rewrite Hc; simpl.
  destruct (index l p); simpl; [|done].
  repeat (rewrite Hit; simpl). done.
Qed.

Lemma CalendarIterator_next_eq h it c p l :
  h !! it = Some (CalendarIteratorObj c p) ->
  h !! c = Some (PyList l) ->
  next it h =
    match index l p with
    | Some v => (Ok v, <[it := CalendarIteratorObj c (p + 1)]> h)
    | None => (Raise StopIteration, h)
    end.
Proof.
  intros Hit Hc. unfold next. rewrite Hit.
  unfold CalendarIterator.__next__, bind, try_except, ret, raise,
    CalendarIterator.get_collection, CalendarIterator.get_position,
    CalendarIterator.set_position, getitem.
  repeat (rewrite Hit; simpl). rewrite Hc; simpl.
  destruct (index l p); simpl; [|done].
  repeat (rewrite Hit; simpl). done.
Qed.
End Next.

(** ** Successive calls on one cursor

    The two cursor classes share one shape: an object built from the
    collection and the position, read through [index] and moved by a
    fixed step.  The traversal lemmas are proved once for that shape. *)

Lemma iterate_S {S R : Type} (step : S -> R * S) (n : nat) (s : S) :
  iterate step (Datatypes.S n) s =
    let '(r, s1) := step s in
    let '(rs, s2) := iterate step n s1 in
    (r :: rs, s2).
Proof. reflexivity. Qed.

Section Traversal.
Context {A : Type}.
Variable next : loc -> M A A.
Variable mk : loc -> Z -> obj A.
Variable step : Z.
Hypothesis next_eq : forall (h : heap A) it c p l,
  h !! it = Some (mk c p) ->
  h !! c = Some (PyList l) ->
  next it h =
    match index l p with
    | Some v => (Ok v, <[it := mk c (p + step)%Z]> h)
    | None => (Raise StopIteration, h)
    end.
Hypothesis mk_not_list : forall c p l, mk c p <> PyList l.

Implicit Types (h : heap A) (l : list A) (it c : loc).

Lemma cursor_not_collection h it c c' p l :
  h !! it = Some (mk c' p) -> h !! c = Some (PyList l) -> it <> c.
Proof. intros Hit Hc ->. rewrite Hit in Hc. inversion Hc as [Heq]. by apply mk_not_list in Heq. Qed.

(** A forward cursor at position [k] yields the items from [k] on, then
    signals the end and stays at [len]. *)
Lemma pull_forward it c l :
  step = 1%Z ->
  forall n k h,
    h !! it = Some (mk c (Z.of_nat k)) ->
    h !! c = Some (PyList l) ->
    (k + n)%nat = length l ->
    pull next it (S n) h =
      ((Ok <$> drop k l) ++ [Raise StopIteration],
       <[it := mk c (Z.of_nat (length l))]> h).
Proof.
  intros Hstep. unfold pull. induction n as [|n IH]; intros k h Hit Hc Hlen.
  - simpl. rewrite (next_eq _ _ _ _ _ Hit Hc), index_nonneg, Nat2Z.id by lia.
    rewrite (proj2 (lookup_ge_None l k)) by lia.
    rewrite drop_ge by lia. simpl. f_equal.
    replace (length l) with k by lia. by rewrite insert_id.
  - assert (is_Some (l !! k)) as [v Hv] by (apply lookup_lt_is_Some; lia).
    rewrite iterate_S, (next_eq _ _ _ _ _ Hit Hc), index_nonneg, Nat2Z.id by lia.
    rewrite Hv, Hstep.
    assert (it <> c) as Hne by eauto using cursor_not_collection.
    rewrite (IH (S k)).
    + rewrite insert_insert_eq. by rewrite (drop_S _ _ _ Hv).
    + rewrite lookup_insert_eq. do 2 f_equal. lia.
    + by rewrite lookup_insert_ne.
    + lia.
Qed.

(** A backward cursor at position [-1 - k] yields the first [len - k]
    items last to first, then signals the end and stays at [-1 - len]. *)
Lemma pull_backward it c l :
  step = (-1)%Z ->
  forall n k h,
    h !! it = Some (mk c (-1 - Z.of_nat k)%Z) ->
    h !! c = Some (PyList l) ->
    (k + n)%nat = length l ->
    pull next it (S n) h =
      ((Ok <$> reverse (take n l)) ++ [Raise StopIteration],
       <[it := mk c (-1 - Z.of_nat (length l))%Z]> h).
Proof.
  intros Hstep. unfold pull. induction n as [|n IH]; intros k h Hit Hc Hlen.
  - simpl. rewrite (next_eq _ _ _ _ _ Hit Hc), index_neg by lia.
    destruct (Z.leb_spec 0 (-1 - Z.of_nat k + Z.of_nat (length l))) as [?|_]; [lia|].
    simpl. f_equal.
    replace (length l) with k by lia. by rewrite insert_id.
  - assert (is_Some (l !! n)) as [v Hv] by (apply lookup_lt_is_Some; lia).
    rewrite iterate_S, (next_eq _ _ _ _ _ Hit Hc), index_neg by lia.
    destruct (Z.leb_spec 0 (-1 - Z.of_nat k + Z.of_nat (length l))) as [_|?]; [|lia].
    replace (Z.to_nat (-1 - Z.of_nat k + Z.of_nat (length l))) with n by lia.
    rewrite Hv, Hstep.
    assert (it <> c) as Hne by eauto using cursor_not_collection.
    rewrite (IH (S k)).
    + rewrite insert_insert_eq.
      by rewrite (take_S_r _ _ _ Hv), reverse_snoc.
    + rewrite lookup_insert_eq. do 2 f_equal. lia.
    + by rewrite lookup_insert_ne.
    + lia.
Qed.

(** A call that signals the end leaves the heap as it was, so the
    calls that follow it signal the end too. *)
Lemma pull_exhausted it c p l h :
  h !! it = Some (mk c p) ->
  h !! c = Some (PyList l) ->
  index l p = None ->
  forall n, pull next it n h = (replicate n (Raise StopIteration), h).
Proof.
  intros Hit Hc Hidx. unfold pull. induction n as [|n IH]; [done|].
  rewrite iterate_S, (next_eq _ _ _ _ _ Hit Hc), Hidx, IH. done.
Qed.
End Traversal.

(** ** Containers: construction, append, cursor creation *)

Section Containers.
Context {A : Type}.
Implicit Types (h : heap A) (l items : list A) (w c it : loc).

Lemma bind_Ok {T U} (m : M A T) (k : T -> M A U) h v h' :
  m h = (Ok v, h') -> bind m k h = k v h'.
Proof. intros H. unfold bind. by rewrite H. Qed.

Lemma fresh_lookup h : h !! fresh (dom h) = None.
Proof. apply not_elem_of_dom, is_fresh. Qed.

Lemma fresh_ne h x o : h !! x = Some o -> x <> fresh (dom h).
Proof. intros Hx ->. by rewrite fresh_lookup in Hx. Qed.

Lemma WordsCollection_add_item_eq h w c l x :
  h !! w = Some (WordsCollectionObj c) ->
  h !! c = Some (PyList l) ->
  WordsCollection.add_item w x h = (Ok tt, <[c := PyList (l ++ [x])]> h).
Proof.
  intros Hw Hc. unfold WordsCollection.add_item, WordsCollection.get_collection,
    bind, list_append.
  rewrite Hw; simpl. by rewrite Hc.
Qed.

Lemma CollectionCalendarDays_add_item_eq h w c l x :
  h !! w = Some (CollectionCalendarDaysObj c) ->
  h !! c = Some (PyList l) ->
  CollectionCalendarDays.add_item w x h = (Ok tt, <[c := PyList (l ++ [x])]> h).
Proof.
  intros Hw Hc. unfold CollectionCalendarDays.add_item,
    CollectionCalendarDays.get_collection, bind, list_append.
  rewrite Hw; simpl. by rewrite Hc.
Qed.

(** Appending [items] one after the other to a container that holds
    [l] leaves it holding [l ++ items]; nothing else changes. *)
Lemma for_each_append (add_item : loc -> A -> M A unit) (wobj : obj A) w c :
  (forall h l x, h !! w = Some wobj -> h !! c = Some (PyList l) ->
     add_item w x h = (Ok tt, <[c := PyList (l ++ [x])]> h)) ->
  (forall l, wobj <> PyList l) ->
  forall items h l,
    h !! w = Some wobj ->
    h !! c = Some (PyList l) ->
    for_each (add_item w) items h = (Ok tt, <[c := PyList (l ++ items)]> h).
Proof.
  intros Hadd Hobj. induction items as [|x items IH]; intros h l Hw Hc.
  - simpl. unfold ret. by rewrite app_nil_r, insert_id.
  - assert (w <> c) as Hne.
    { intros ->. rewrite Hw in Hc. inversion Hc as [Heq]. by apply Hobj in Heq. }
    simpl. unfold bind. rewrite (Hadd _ _ _ Hw Hc).
    rewrite (IH _ (l ++ [x])).
    + by rewrite insert_insert_eq, <- app_assoc.
    + by rewrite lookup_insert_ne.
    + by rewrite lookup_insert_eq.
Qed.

Lemma WordsCollection_iter_eq h w c :
  h !! w = Some (WordsCollectionObj c) ->
  WordsCollection.__iter__ w h =
    (Ok (fresh (dom h)),
     <[fresh (dom h) := AlphabeticalOrderIteratorObj c false 0%Z]> h).
Proof.
  intros Hw. unfold WordsCollection.__iter__, WordsCollection.get_collection,
    AlphabeticalOrderIterator.__init__, bind, alloc.
  by rewrite Hw.
Qed.

Lemma WordsCollection_get_reverse_iterator_eq h w c :
  h !! w = Some (WordsCollectionObj c) ->
  WordsCollection.get_reverse_iterator w h =
    (Ok (fresh (dom h)),
     <[fresh (dom h) := AlphabeticalOrderIteratorObj c true (-1)%Z]> h).
Proof.
  intros Hw. unfold WordsCollection.get_reverse_iterator,
    WordsCollection.get_collection, AlphabeticalOrderIterator.__init__, bind, alloc.
  by rewrite Hw.
Qed.

Lemma CollectionCalendarDays_iter_eq h w c :
  h !! w = Some (CollectionCalendarDaysObj c) ->
  CollectionCalendarDays.__iter__ w h =
    (Ok (fresh (dom h)), <[fresh (dom h) := CalendarIteratorObj c 0%Z]> h).
Proof.
  intros Hw. unfold CollectionCalendarDays.__iter__,
    CollectionCalendarDays.get_collection, CalendarIterator.__init__, bind, alloc.
  by rewrite Hw.
Qed.
End Containers.

Section TraversalOrder.
Context {A : Type}.
Implicit Types (h : heap A) (l items : list A) (w c it : loc).

Lemma AlphabeticalOrderIterator_pull_forward h it c l :
  h !! it = Some (AlphabeticalOrderIteratorObj c false 0%Z) ->
  h !! c = Some (PyList l) ->
  pull next it (S (length l)) h =
    ((Ok <$> l) ++ [Raise StopIteration],
     <[it := AlphabeticalOrderIteratorObj c false (Z.of_nat (length l))]> h).
Proof.
  intros Hit Hc.
  rewrite (pull_forward next
             (fun c p => AlphabeticalOrderIteratorObj c false p) 1%Z) with (c := c) (l := l) (k := 0%nat);
    try done.
  intros. by apply AlphabeticalOrderIterator_next_eq.
Qed.

Lemma AlphabeticalOrderIterator_pull_backward h it c l :
  h !! it = Some (AlphabeticalOrderIteratorObj c true (-1)%Z) ->
  h !! c = Some (PyList l) ->
  pull next it (S (length l)) h =
    ((Ok <$> reverse l) ++ [Raise StopIteration],
     <[it := AlphabeticalOrderIteratorObj c true (-1 - Z.of_nat (length l))%Z]> h).
Proof.
  intros Hit Hc.
  rewrite (pull_backward next
             (fun c p => AlphabeticalOrderIteratorObj c true p) (-1)%Z) with (c := c) (l := l) (k := 0%nat);
    try done.
  - by rewrite firstn_all.
  - intros. by apply AlphabeticalOrderIterator_next_eq.
Qed.

Lemma CalendarIterator_pull_forward h it c l :
  h !! it = Some (CalendarIteratorObj c 0%Z) ->
  h !! c = Some (PyList l) ->
  pull next it (S (length l)) h =
    ((Ok <$> l) ++ [Raise StopIteration],
     <[it := CalendarIteratorObj c (Z.of_nat (length l))]> h).
Proof.
  intros Hit Hc.
  rewrite (pull_forward next CalendarIteratorObj 1%Z)
    with (c := c) (l := l) (k := 0%nat); try done.
  intros. by apply CalendarIterator_next_eq.
Qed.

(** The state in which the cursor of a client program is created: the
    container holds exactly the items appended to it. *)
Lemma populated (add_item : loc -> A -> M A unit) (wobj : obj A) w c items h :
  (forall h l x, h !! w = Some wobj -> h !! c = Some (PyList l) ->
     add_item w x h = (Ok tt, <[c := PyList (l ++ [x])]> h)) ->
  (forall l, wobj <> PyList l) ->
  h !! w = Some wobj ->
  h !! c = Some (PyList []) ->
  exists h1,
    for_each (add_item w) items h = (Ok tt, h1)
    /\ h1 !! w = Some wobj
    /\ h1 !! c = Some (PyList items)
    /\ fresh (dom h1) <> c.
Proof.
  intros Hadd Hobj Hw Hc. eexists. split; [by eapply for_each_append|].
  assert (w <> c) as Hne.
  { intros ->. rewrite Hw in Hc. inversion Hc as [Heq]. by apply Hobj in Heq. }
  simpl app. rewrite lookup_insert_ne, lookup_insert_eq by done.
  split; [done|]. split; [done|].
  apply not_eq_sym, (fresh_ne _ _ (PyList items)), lookup_insert_eq.
Qed.

Lemma words_forward_eq items h w c :
  h !! w = Some (WordsCollectionObj c) ->
  h !! c = Some (PyList []) ->
  (words_forward w items (S (length items)) h).1 =
    Ok ((Ok <$> items) ++ [Raise StopIteration]).
Proof.
  intros Hw Hc.
  destruct (populated WordsCollection.add_item _ w c items h
              ltac:(eauto using WordsCollection_add_item_eq) ltac:(done) Hw Hc)
    as (h1 & Hrun & Hw1 & Hc1 & Hf).
  unfold words_forward, bind, pulls.
  rewrite Hrun, (WordsCollection_iter_eq _ _ _ Hw1).
  rewrite (AlphabeticalOrderIterator_pull_forward _ _ c items); [done| |].
  - by rewrite lookup_insert_eq.
  - by rewrite lookup_insert_ne.
Qed.

Lemma words_backward_eq items h w c :
  h !! w = Some (WordsCollectionObj c) ->
  h !! c = Some (PyList []) ->
  (words_backward w items (S (length items)) h).1 =
    Ok ((Ok <$> reverse items) ++ [Raise StopIteration]).
Proof.
  intros Hw Hc.
  destruct (populated WordsCollection.add_item _ w c items h
              ltac:(eauto using WordsCollection_add_item_eq) ltac:(done) Hw Hc)
    as (h1 & Hrun & Hw1 & Hc1 & Hf).
  unfold words_backward, bind, pulls.
  rewrite Hrun, (WordsCollection_get_reverse_iterator_eq _ _ _ Hw1).
  rewrite (AlphabeticalOrderIterator_pull_backward _ _ c items); [done| |].
  - by rewrite lookup_insert_eq.
  - by rewrite lookup_insert_ne.
Qed.

Lemma calendar_forward_eq items h w c :
  h !! w = Some (CollectionCalendarDaysObj c) ->
  h !! c = Some (PyList []) ->
  (calendar_forward w items (S (length items)) h).1 =
    Ok ((Ok <$> items) ++ [Raise StopIteration]).
Proof.
  intros Hw Hc.
  destruct (populated CollectionCalendarDays.add_item _ w c items h
              ltac:(eauto using CollectionCalendarDays_add_item_eq) ltac:(done) Hw Hc)
    as (h1 & Hrun & Hw1 & Hc1 & Hf).
  unfold calendar_forward, bind, pulls.
  rewrite Hrun, (CollectionCalendarDays_iter_eq _ _ _ Hw1).
  rewrite (CalendarIterator_pull_forward _ _ c items); [done| |].
  - by rewrite lookup_insert_eq.
  - by rewrite lookup_insert_ne.
Qed.
End TraversalOrder.

(** ** A call of [__next__] on an arbitrary heap *)

Section Inversion.
Context {A : Type}.
Implicit Types (h : heap A) (l : list A) (it c : loc).

Lemma next_inv it h :
  exists mk step, cursor_shape mk step /\ next_outcome mk step it h (next it h).
Proof.
  destruct (h !! it) as [o|] eqn:Hit.
  2: { exists CalendarIteratorObj, 1%Z. split; [constructor|].
       unfold_next Hit. by apply next_fails. }
  destruct o as [l|c|c r p|c|c p];
    try (exists CalendarIteratorObj, 1%Z; split; [constructor|];
         unfold_next Hit; by apply next_fails).
  - exists (fun c p => AlphabeticalOrderIteratorObj c r p), (advance r).
    split; [constructor|].
    destruct (h !! c) as [o|] eqn:Hc.
    2: { unfold_next Hit. rewrite Hc; simpl. by apply next_fails. }
    destruct o as [l|c'|c' r' p'|c'|c' p'];
      try (unfold_next Hit; rewrite Hc; simpl; by apply next_fails).
    rewrite (AlphabeticalOrderIterator_next_eq _ _ _ _ _ _ Hit Hc).
    destruct (index l p) as [v|] eqn:Hidx.
    + by eapply (next_returns (fun c p => AlphabeticalOrderIteratorObj c r p)).
    + by eapply (next_stops (fun c p => AlphabeticalOrderIteratorObj c r p)).
  - exists CalendarIteratorObj, 1%Z. split; [constructor|].
    destruct (h !! c) as [o|] eqn:Hc.
    2: { unfold_next Hit. rewrite Hc; simpl. by apply next_fails. }
    destruct o as [l|c'|c' r' p'|c'|c' p'];
      try (unfold_next Hit; rewrite Hc; simpl; by apply next_fails).
    rewrite (CalendarIterator_next_eq _ _ _ _ _ Hit Hc).
    destruct (index l p) as [v|] eqn:Hidx.
    + by eapply next_returns.
    + by eapply next_stops.
Qed.

Lemma cursor_shape_next_eq mk step :
  cursor_shape mk step ->
  forall h it c p l,
    h !! it = Some (mk c p) ->
    h !! c = Some (PyList l) ->
    next it h =
      match index l p with
      | Some v => (Ok v, <[it := mk c (p + step)%Z]> h)
      | None => (Raise StopIteration, h)
      end.
Proof.
  intros [r|] h it c p l Hit Hc.
  - by apply AlphabeticalOrderIterator_next_eq.
  - by apply CalendarIterator_next_eq.
Qed.

Lemma cursor_shape_not_list mk step :
  cursor_shape mk step -> forall c p l, mk c p <> PyList l.
Proof. by intros [r|]. Qed.
End Inversion.

(** ** Traversal order *)

Section OrderClaims.
Context {A : Type}.
Implicit Types (h : heap A) (items : list A).

(** C1. A container that was empty and to which the items [i1..iN] were
    appended in that order is traversed by its default (forward) cursor
    in the order of the appends: the first [N] calls of [next] return
    [i1], ..., [iN] and the call after them raises [StopIteration].
    This holds for the cursor of [WordsCollection] and for the one of
    [CollectionCalendarDays], for every [N] and every type of item. *)
Theorem forward_cursor_yields_items_in_append_order items h w c w' c' :
  h !! w = Some (WordsCollectionObj c) ->
  h !! c = Some (PyList []) ->
  h !! w' = Some (CollectionCalendarDaysObj c') ->
  h !! c' = Some (PyList []) ->
  (words_forward w items (S (length items)) h).1 =
    Ok ((Ok <$> items) ++ [Raise StopIteration])
  /\ (calendar_forward w' items (S (length items)) h).1 =
    Ok ((Ok <$> items) ++ [Raise StopIteration]).
Proof.
  intros Hw Hc Hw' Hc'. split.
  - by eapply words_forward_eq.
  - by eapply calendar_forward_eq.
Qed.

(** C2. Over a container that was empty and to which [i1..iN] were
    appended in that order, the reverse cursor returns [iN], ..., [i1]
    on its first [N] calls of [next] and raises [StopIteration] on the
    call after them. *)
Theorem backward_cursor_yields_items_in_reverse_order items h w c :
  h !! w = Some (WordsCollectionObj c) ->
  h !! c = Some (PyList []) ->
  (words_backward w items (S (length items)) h).1 =
    Ok ((Ok <$> reverse items) ++ [Raise StopIteration]).
Proof. apply words_backward_eq. Qed.
End OrderClaims.

Lemma forward_cursor_yields_items_in_append_order_witness :
  (words_forward Scenario.words Scenario.three 4 Scenario.heap0).1 =
    Ok [Ok "First"; Ok "Second"; Ok "Third"; Raise StopIteration]%string
  /\ (calendar_forward Scenario.days Scenario.three 4 Scenario.heap0).1 =
    Ok [Ok "First"; Ok "Second"; Ok "Third"; Raise StopIteration]%string.
Proof.
  apply (forward_cursor_yields_items_in_append_order Scenario.three Scenario.heap0
           Scenario.words 1%positive Scenario.days 2%positive); reflexivity.
Defined.

Lemma backward_cursor_yields_items_in_reverse_order_witness :
  (words_backward Scenario.words Scenario.three 4 Scenario.heap0).1 =
    Ok [Ok "Third"; Ok "Second"; Ok "First"; Raise StopIteration]%string.
Proof.
  apply (backward_cursor_yields_items_in_reverse_order Scenario.three Scenario.heap0
           Scenario.words 1%positive); reflexivity.
Defined.

(** ** Exhaustion *)

Section ExhaustionClaims.
Context {A : Type}.
Implicit Types (h : heap A) (it : loc).

Lemma next_outcome_stop mk step it h h' :
  next_outcome (A := A) mk step it h (Raise StopIteration, h') ->
  h' = h /\ exists c p l,
    h !! it = Some (mk c p) /\ h !! c = Some (PyList l) /\ index l p = None.
Proof. inversion 1; subst; [eauto 10|done]. Qed.

(** C10. A call of [next] that raises [StopIteration] changes nothing:
    the heap after it is the heap before it, so the cursor object keeps
    its position, its direction and its collection.  (The assignment to
    the position follows the indexing inside the [try] and is skipped
    when the indexing raises.) *)
Theorem failed_next_leaves_cursor_unchanged h h' it :
  next it h = (Raise StopIteration, h') ->
  h' = h /\ h' !! it = h !! it.
Proof.
  intros H. destruct (next_inv it h) as (mk & step & _ & Hr).
  rewrite H in Hr. by apply next_outcome_stop in Hr as [-> _].
Qed.

(** X3.  Exhaustion while the list is as it was.  Once a call of [next] on a
    cursor has raised [StopIteration], each of the calls of [next] that
    follow on that cursor raises [StopIteration] again and leaves the
    cursor where it was, however many they are; and so does a call made
    in any later state in which the cursor object and the list it reads
    are what they were.  The position neither moves back nor wraps. *)
Theorem exhaustion_is_terminal h h' it :
  next it h = (Raise StopIteration, h') ->
  h' !! it = h !! it
  /\ (forall n : nat, pull next it n h' = (replicate n (Raise StopIteration), h'))
  /\ exists c l,
       h !! c = Some (PyList l)
       /\ forall g, g !! it = h !! it -> g !! c = Some (PyList l) ->
            next it g = (Raise StopIteration, g).
Proof.
  intros H. destruct (next_inv it h) as (mk & step & Hshape & Hr).
  rewrite H in Hr. apply next_outcome_stop in Hr as [-> (c & p & l & Hit & Hc & Hidx)].
  split; [done|]. split.
  - intros n.
    by apply (pull_exhausted next mk step (cursor_shape_next_eq _ _ Hshape))
      with (c := c) (p := p) (l := l).
  - exists c, l. split; [done|]. intros g Hg Hgc. rewrite Hit in Hg.
    by rewrite (cursor_shape_next_eq _ _ Hshape _ _ _ _ _ Hg Hgc), Hidx.
Qed.
End ExhaustionClaims.

(** ** Several cursors over one list *)

Section Interleaving.
Context {A : Type}.
Implicit Types (h g : heap A) (l : list A) (it c : loc) (sched : list loc).

(** A call of [next] writes at most the object it is called on, and
    never a list. *)
Lemma next_frame it h x :
  x <> it -> (next it h).2 !! x = h !! x.
Proof.
  intros Hne. destruct (next_inv it h) as (mk & step & _ & Hr).
  inversion Hr; simpl; [by rewrite lookup_insert_ne|done..].
Qed.

Lemma next_keeps_lists it h c l :
  h !! c = Some (PyList l) -> (next it h).2 !! c = Some (PyList l).
Proof.
  intros Hc. destruct (next_inv it h) as (mk & step & Hshape & Hr).
  inversion Hr as [c' p l' v Hit Hc' Hidx Heq| |]; simpl; [|done..].
  rewrite lookup_insert_ne; [done|].
  eapply (cursor_not_collection mk (cursor_shape_not_list _ _ Hshape)); eauto.
Qed.

Lemma results_of_cons_eq it (r : result A) tr :
  results_of it ((it, r) :: tr) = r :: results_of it tr.
Proof. unfold results_of. by rewrite filter_cons_True. Qed.

Lemma results_of_cons_ne it it' (r : result A) tr :
  it' <> it -> results_of it ((it', r) :: tr) = results_of it tr.
Proof. intros Hne. unfold results_of. by rewrite filter_cons_False. Qed.

Lemma calls_on_cons_eq it sched : calls_on it (it :: sched) = S (calls_on it sched).
Proof. unfold calls_on. by rewrite filter_cons_True. Qed.

Lemma calls_on_cons_ne it it' sched :
  it' <> it -> calls_on it (it' :: sched) = calls_on it sched.
Proof. intros Hne. unfold calls_on. by rewrite filter_cons_False. Qed.

(** In a run that interleaves calls on any cursors, a cursor sees the
    outcomes, and ends at the position, of the same number of calls
    made on it alone. *)
Lemma run_isolated mk step :
  cursor_shape mk step ->
  forall sched h g it c p l,
    h !! it = Some (mk c p) ->
    g !! it = Some (mk c p) ->
    h !! c = Some (PyList l) ->
    g !! c = Some (PyList l) ->
    results_of it (run next sched h).1 = (pull next it (calls_on it sched) g).1
    /\ (run next sched h).2 !! it = (pull next it (calls_on it sched) g).2 !! it
    /\ (run next sched h).2 !! c = Some (PyList l).
Proof.
  intros Hshape. unfold pull.
  induction sched as [|it' sched IH]; intros h g it c p l Hh Hg Hhc Hgc.
  - simpl. by rewrite Hh, Hg.
  - assert (it <> c) as Hne.
    { eapply (cursor_not_collection mk (cursor_shape_not_list _ _ Hshape)); eauto. }
    simpl run. destruct (decide (it' = it)) as [->|Hit'].
    + rewrite calls_on_cons_eq, iterate_S.
      rewrite (cursor_shape_next_eq _ _ Hshape _ _ _ _ _ Hh Hhc).
      rewrite (cursor_shape_next_eq _ _ Hshape _ _ _ _ _ Hg Hgc).
      destruct (index l p) as [v|].
      * specialize (IH (<[it := mk c (p + step)%Z]> h) (<[it := mk c (p + step)%Z]> g)
                      it c (p + step)%Z l).
        destruct IH as (IH1 & IH2 & IH3);
          rewrite ?lookup_insert_eq, ?lookup_insert_ne by done; try done.
        destruct (run next sched _) as [rs h2], (iterate (next it) _ _) as [rs' g2].
        simpl in *. by rewrite results_of_cons_eq, IH1.
      * specialize (IH h g it c p l Hh Hg Hhc Hgc) as (IH1 & IH2 & IH3).
        destruct (run next sched _) as [rs h2], (iterate (next it) _ _) as [rs' g2].
        simpl in *. by rewrite results_of_cons_eq, IH1.
    + rewrite calls_on_cons_ne by done.
      pose proof (next_frame it' h it ltac:(done)) as Hfr.
      pose proof (next_keeps_lists it' h c l Hhc) as Hls.
      destruct (next it' h) as [r h1]. simpl in Hfr, Hls.
      specialize (IH h1 g it c p l) as (IH1 & IH2 & IH3); try done.
      { by rewrite Hfr. }
      destruct (run next sched _) as [rs h2]. simpl in *.
      by rewrite results_of_cons_ne.
Qed.

(** C6. Take the default cursor and the reverse cursor of one container
    and call [next] on them in any order.  The two cursors are distinct
    objects; no call changes the list of the container or the object of
    the other cursor; and each cursor sees exactly the outcomes, and
    ends at the position, of the same number of calls made on it alone. *)
Theorem interleaved_cursors_do_not_interfere (order : list bool) h w c l :
  h !! w = Some (WordsCollectionObj c) ->
  h !! c = Some (PyList l) ->
  exists fwd bwd h2,
    (it1 <~ WordsCollection.__iter__ w ;;
     it2 <~ WordsCollection.get_reverse_iterator w ;;
     ret (it1, it2)) h = (Ok (fwd, bwd), h2)
    /\ fwd <> bwd
    /\ (forall g, (next fwd g).2 !! bwd = g !! bwd /\ (next bwd g).2 !! fwd = g !! fwd)
    /\ (forall g it, g !! c = Some (PyList l) -> (next it g).2 !! c = Some (PyList l))
    /\ let sched := (fun b : bool => if b then fwd else bwd) <$> order in
       forall it, it = fwd \/ it = bwd ->
         results_of it (run next sched h2).1 = (pull next it (calls_on it sched) h2).1
         /\ (run next sched h2).2 !! it = (pull next it (calls_on it sched) h2).2 !! it
         /\ (run next sched h2).2 !! c = Some (PyList l).
Proof.
  intros Hw Hc.
  assert (w <> c) as Hwc by (intros ->; rewrite Hw in Hc; done).
  set (fwd := fresh (dom h)).
  set (h1 := <[fwd := AlphabeticalOrderIteratorObj c false 0%Z]> h).
  set (bwd := fresh (dom h1)).
  set (h2 := <[bwd := AlphabeticalOrderIteratorObj c true (-1)%Z]> h1).
  assert (h1 !! fwd = Some (AlphabeticalOrderIteratorObj c false 0%Z)) as Hf1
    by apply lookup_insert_eq.
  assert (fwd <> bwd) as Hfb by (by eapply fresh_ne).
  assert (fwd <> c) as Hfc by (apply not_eq_sym; by eapply fresh_ne).
  assert (h1 !! c = Some (PyList l)) as Hc1 by (by unfold h1; rewrite lookup_insert_ne).
  assert (bwd <> c) as Hbc by (apply not_eq_sym; by eapply fresh_ne).
  assert (bwd <> w) as Hbw.
  { apply not_eq_sym. eapply (fresh_ne h1). unfold h1.
    rewrite lookup_insert_ne; [done|]. apply not_eq_sym. by eapply fresh_ne. }
  exists fwd, bwd, h2. split; [|split; [done|split; [|split]]].
  - unfold bind. rewrite (WordsCollection_iter_eq _ _ _ Hw).
    fold fwd. fold h1.
    rewrite (WordsCollection_get_reverse_iterator_eq h1 w c); [done|].
    unfold h1. rewrite lookup_insert_ne; [done|]. apply not_eq_sym. by eapply fresh_ne.
  - intros g. split; by apply next_frame.
  - intros g it. apply next_keeps_lists.
  - intros sched it [->| ->].
    + apply (run_isolated _ _ (shape_alphabetical false)) with (p := 0%Z); try done;
        unfold h2; by rewrite lookup_insert_ne.
    + apply (run_isolated _ _ (shape_alphabetical true)) with (p := (-1)%Z); try done;
        unfold h2; by rewrite ?lookup_insert_eq, ?lookup_insert_ne.
Qed.
End Interleaving.

(** ** The range-bounded generator *)

Module GeneratorProps.
Import datetime calendar_generator GeneratorSpec.
Local Open Scope Z_scope.

Lemma day_toordinal d : day (toordinal d) = d.
Proof. by destruct d. Qed.

Lemma resume_eq (n : nat) : forall s e,
  0 < toordinal s ->
  toordinal e <= _MAXORDINAL ->
  toordinal e - toordinal s = Z.of_nat n ->
  iterate __next__ (S n) (Suspended s e) =
    (((fun o => Ok (strftime (day o) "%d %B")) <$> seqZ (toordinal s + 1) (Z.of_nat n))
       ++ [Raise (end_signal e)],
     Finished).
Proof.
  induction n as [|n IH]; intros s e Hs He Hn.
  - simpl. unfold date_add, end_signal. simpl days.
    destruct (Z.ltb_spec 0 (toordinal s + 1)) as [_|?]; [|lia].
    destruct (Z.ltb_spec (toordinal e) _MAXORDINAL) as [Hlt|Hge].
    + destruct (Z.leb_spec (toordinal s + 1) _MAXORDINAL) as [_|?]; [|lia]. simpl.
      unfold while_test, date_le. simpl toordinal.
      destruct (Z.leb_spec (toordinal s + 1) (toordinal e)) as [?|_]; [lia|]. done.
    + destruct (Z.leb_spec (toordinal s + 1) _MAXORDINAL) as [?|_]; [lia|]. done.
  - rewrite iterate_S. cbn [__next__]. unfold date_add. simpl days.
    destruct (Z.ltb_spec 0 (toordinal s + 1)) as [_|?]; [|lia].
    destruct (Z.leb_spec (toordinal s + 1) _MAXORDINAL) as [_|?]; [|lia].
    cbn [andb]. unfold while_test, date_le. cbn [toordinal].
    destruct (Z.leb_spec (toordinal s + 1) (toordinal e)) as [_|?]; [|lia].
    rewrite (IH {| toordinal := toordinal s + 1 |} e); cbn [toordinal]; try lia.
    rewrite (seqZ_cons (toordinal s + 1) (Z.of_nat (S n))) by lia.
    rewrite fmap_cons. unfold day at 2. cbn [app].
    replace (Z.pred (Z.of_nat (S n))) with (Z.of_nat n) by lia.
    by replace (Z.succ (toordinal s + 1)) with (toordinal s + 1 + 1) by lia.
Qed.

(** From [s] up to [e]: one formatted value per day, [s] first, then
    the end signal, and the generator is finished. *)
Lemma traversal_eq s e :
  date_valid s -> date_valid e ->
  toordinal s <= toordinal e ->
  iterate __next__ (S (Z.to_nat (toordinal e - toordinal s + 1)))
    (calendar_generator_datetime s e)
  = (formatted_days s e ++ [Raise (end_signal e)], Finished).
Proof.
  intros [Hs _] [_ He] Hle. unfold formatted_days.
  replace (Z.to_nat (toordinal e - toordinal s + 1))
    with (S (Z.to_nat (toordinal e - toordinal s))) by lia.
  rewrite iterate_S. unfold calendar_generator_datetime. cbn [__next__].
  unfold while_test, date_le.
  destruct (Z.leb_spec (toordinal s) (toordinal e)) as [_|?]; [|lia].
  rewrite (resume_eq (Z.to_nat (toordinal e - toordinal s))) by lia.
  rewrite (seqZ_cons (toordinal s)) by lia.
  rewrite fmap_cons, day_toordinal, Z2Nat.id by lia. cbn [app].
  replace (Z.pred (toordinal e - toordinal s + 1)) with (toordinal e - toordinal s) by lia.
  by replace (Z.succ (toordinal s)) with (toordinal s + 1) by lia.
Qed.

Lemma empty_range_eq s e :
  toordinal e < toordinal s ->
  __next__ (calendar_generator_datetime s e) = (Raise StopIteration, Finished).
Proof.
  intros Hlt. unfold calendar_generator_datetime, __next__, while_test, date_le.
  destruct (Z.leb_spec (toordinal s) (toordinal e)); [lia|done].
Qed.

Lemma length_formatted_days s e :
  toordinal s <= toordinal e ->
  Z.of_nat (length (formatted_days s e)) = toordinal e - toordinal s + 1.
Proof. intros Hle. unfold formatted_days. rewrite length_fmap, length_seqZ. lia. Qed.

(** X17.  Ranges that end before the last representable day.  For valid
    dates with [end_calendar] before 9999-12-31, [(end - start) + 1]
    pulls (none when [start > end]) produce the ['%d %B'] formatting of
    [start], [start + 1 day], ..., [end] in that order, the pull after
    them raises [StopIteration], and the generator is finished. *)
Theorem generator_yields_each_day_then_stops s e :
  date_valid s -> date_valid e ->
  toordinal e < _MAXORDINAL ->
  iterate __next__ (S (Z.to_nat (toordinal e - toordinal s + 1)))
    (calendar_generator_datetime s e)
  = (formatted_days s e ++ [Raise StopIteration], Finished)
  /\ length (formatted_days s e) = Z.to_nat (toordinal e - toordinal s + 1)
  /\ (forall k : nat,
        Z.of_nat k <= toordinal e - toordinal s ->
        formatted_days s e !! k =
          Some (Ok (strftime (day (toordinal s + Z.of_nat k)) "%d %B")))
  /\ (toordinal e < toordinal s -> formatted_days s e = []).
Proof.
  intros Hs He Hmax. split; [|split; [|split]].
  - destruct (Z.le_gt_cases (toordinal s) (toordinal e)) as [Hle|Hgt].
    + rewrite traversal_eq by done. unfold end_signal.
      by destruct (Z.ltb_spec (toordinal e) _MAXORDINAL); [|lia].
    + replace (Z.to_nat (toordinal e - toordinal s + 1)) with 0%nat by lia.
      unfold formatted_days. rewrite seqZ_nil by lia.
      rewrite iterate_S, empty_range_eq by lia. done.
  - unfold formatted_days. by rewrite length_fmap, length_seqZ.
  - intros k Hk. unfold formatted_days.
    rewrite list_lookup_fmap, lookup_seqZ_lt by lia. done.
  - intros Hlt. unfold formatted_days. by rewrite seqZ_nil by lia.
Qed.

(** The driver's range, 2023-09-01 to 2023-09-03. *)
Lemma generator_yields_each_day_then_stops_witness :
  date_of 2023 9 1 = Some (day 738764)
  /\ date_of 2023 9 3 = Some (day 738766)
  /\ date_valid (day 738764)
  /\ date_valid (day 738766)
  /\ toordinal (day 738766) < _MAXORDINAL
  /\ iterate __next__ 4 (calendar_generator_datetime (day 738764) (day 738766))
     = ([Ok "01 September"; Ok "02 September"; Ok "03 September";
         Raise StopIteration]%string, Finished).
Proof.
  assert (date_valid (day 738764)) as Hs by (unfold date_valid, _MAXORDINAL; simpl; lia).
  assert (date_valid (day 738766)) as He by (unfold date_valid, _MAXORDINAL; simpl; lia).
  assert (toordinal (day 738766) < _MAXORDINAL) as Hmax by (unfold _MAXORDINAL; simpl; lia).
  split; [reflexivity|]. split; [reflexivity|].
  split; [exact Hs|]. split; [exact He|]. split; [exact Hmax|].
  exact (proj1 (generator_yields_each_day_then_stops _ _ Hs He Hmax)).
Defined.

(** C7 asks that every range [start <= end] ends with [StopIteration].
    The code does not when [end_calendar] is the last representable day:
    after the value for 9999-12-31 the increment of [start_calendar]
    raises [OverflowError], and that ends the traversal. *)
Lemma generator_overflows_after_last_day :
  date_of 9999 12 31 = Some (day _MAXORDINAL)
  /\ date_le (day _MAXORDINAL) (day _MAXORDINAL) = true
  /\ (iterate __next__ 2 (calendar_generator_datetime (day _MAXORDINAL) (day _MAXORDINAL))).1
     = [Ok "31 December"%string; Raise OverflowError].
Proof. vm_compute. done. Qed.

End GeneratorProps.

(** ** Construction of a cursor *)

Section Construction.
Context {A : Type}.
Implicit Types (h : heap A) (l : list A) (c : loc).
Local Open Scope Z_scope.

Lemma index_minus_one l : index l (-1) = last l.
Proof.
  rewrite index_neg by lia. rewrite last_lookup.
  destruct l as [|x l]; [done|].
  destruct (Z.leb_spec 0 (-1 + Z.of_nat (length (x :: l)))) as [_|H];
    [|simpl length in H; lia].
  f_equal. simpl length. lia.
Qed.

Lemma index_zero l : index l 0 = head l.
Proof. rewrite index_nonneg by lia. by destruct l. Qed.

(** C4, as the code has it.  A new cursor is a new object whose
    position is [0] when the direction is forward and [-1] when it is
    backward, whatever the length of the sequence; [CalendarIterator],
    which has no direction, starts at [0].  Index [0] reads the first
    item and index [-1] the last one, the item at [len - 1] of a
    sequence that is not empty. *)
Theorem cursor_initial_position h c (reverse : bool) l :
  AlphabeticalOrderIterator.__init__ c reverse h =
    (Ok (fresh (dom h)),
     <[fresh (dom h) :=
         AlphabeticalOrderIteratorObj c reverse (if reverse then -1 else 0)]> h)
  /\ CalendarIterator.__init__ c h =
      (Ok (fresh (dom h)), <[fresh (dom h) := CalendarIteratorObj c 0]> h)
  /\ h !! fresh (dom h) = None
  /\ index l 0 = head l
  /\ index l (-1) = last l
  /\ last l = l !! (length l - 1)%nat.
Proof.
  repeat split.
  - apply fresh_lookup.
  - apply index_zero.
  - apply index_minus_one.
  - by rewrite last_lookup, Nat.sub_1_r.
Qed.
End Construction.

(** C4 fails for a backward cursor over a sequence of three items: its
    position after construction is [-1], not [3 - 1]. *)
Lemma backward_cursor_does_not_start_at_last_index :
  let h : heap string := {[ 1%positive := PyList Scenario.three ]} in
  exists it h',
    AlphabeticalOrderIterator.__init__ 1%positive true h = (Ok it, h')
    /\ h' !! it = Some (AlphabeticalOrderIteratorObj 1%positive true (-1))
    /\ (-1)%Z <> (Z.of_nat (length Scenario.three) - 1)%Z.
Proof. simpl. eexists _, _. split; [reflexivity|]. split; [reflexivity|]. simpl. lia. Qed.

(** ** The cursor as a two-state machine *)

Section StateMachine.
Context {A : Type}.
Implicit Types (h : heap A) (l : list A) (it c : loc).
Local Open Scope Z_scope.

(** C5, as the code has it.  For a cursor over a list of length [L]
    that is about to read index [p]: the call of [next] leaves it
    [Exhausted] exactly when [p] is outside [-L, L) (an index from [-L]
    to [-1] reads from the end of the list); for [p >= 0], the only
    positions a forward cursor takes, that is exactly when [p] is
    outside [0, L); and once [Exhausted] the cursor is [Exhausted] after
    each further call. *)
Theorem cursor_state_machine mk step h it c p l :
  cursor_shape mk step ->
  h !! it = Some (mk c p) ->
  h !! c = Some (PyList l) ->
  initial_state = Active
  /\ (state_after (next it h).1 = Exhausted
      <-> ~ (- Z.of_nat (length l) <= p < Z.of_nat (length l)))
  /\ (0 <= p ->
      (state_after (next it h).1 = Exhausted <-> ~ (0 <= p < Z.of_nat (length l))))
  /\ (state_after (next it h).1 = Exhausted ->
      forall n : nat,
        state_after (next it (pull next it n (next it h).2).2).1 = Exhausted).
Proof.
  intros Hshape Hit Hc.
  pose proof (cursor_shape_next_eq _ _ Hshape _ _ _ _ _ Hit Hc) as Hnext.
  assert (state_after (next it h).1 = Exhausted <-> index l p = None) as Hiff.
  { rewrite Hnext. destruct (index l p); simpl; split; done. }
  split; [done|]. split; [|split].
  - by rewrite Hiff, index_None.
  - intros Hp. rewrite Hiff, index_None. lia.
  - rewrite Hiff. intros Hidx n.
    rewrite Hnext, Hidx. simpl.
    rewrite (pull_exhausted next mk step (cursor_shape_next_eq _ _ Hshape)
               it c p l h Hit Hc Hidx n).
    simpl. by rewrite Hnext, Hidx.
Qed.
End StateMachine.

(** C5 fails for a backward cursor: its first call over a list of one
    item reads index [-1], which is outside [0, 1), and returns the
    item; the cursor stays [Active]. *)
Lemma backward_cursor_reads_outside_0_len :
  let h : heap string :=
    {[ 1%positive := PyList ["a"%string];
       2%positive := AlphabeticalOrderIteratorObj 1%positive true (-1) ]} in
  h !! 2%positive = Some (AlphabeticalOrderIteratorObj 1%positive true (-1))
  /\ h !! 1%positive = Some (PyList ["a"%string])
  /\ ~ (0 <= -1 < Z.of_nat (length ["a"%string]))%Z
  /\ (next 2%positive h).1 = Ok "a"%string
  /\ state_after (next 2%positive h).1 = Active.
Proof. simpl. repeat split; try reflexivity. lia. Qed.

(** ** The default argument of the container constructors *)

Section SharedDefault.
Context {A : Type}.
Implicit Types (h : heap A) (x : A).

Lemma words_shared_default_eq h x :
  exists c1 c2 d h',
    words_shared_default x h = (Ok (c1, c2, x), h')
    /\ c1 <> c2
    /\ h' !! c1 = Some (WordsCollectionObj d)
    /\ h' !! c2 = Some (WordsCollectionObj d)
    /\ h' !! d = Some (PyList [x]).
Proof.
  set (d := fresh (dom h)).
  set (h1 := <[d := PyList []]> h).
  set (c1 := fresh (dom h1)).
  set (h2 := <[c1 := WordsCollectionObj d]> h1).
  set (c2 := fresh (dom h2)).
  set (h3 := <[c2 := WordsCollectionObj d]> h2).
  set (h4 := <[d := PyList ([] ++ [x])]> h3).
  set (it := fresh (dom h4)).
  assert (d <> c1) as Hdc1.
  { apply (fresh_ne h1 d (PyList [])). apply lookup_insert_eq. }
  assert (c1 <> c2) as Hc12.
  { eapply (fresh_ne h2 c1). apply lookup_insert_eq. }
  assert (d <> c2) as Hdc2.
  { eapply (fresh_ne h2). unfold h2. rewrite lookup_insert_ne by done.
    apply lookup_insert_eq. }
  assert (h3 !! c1 = Some (WordsCollectionObj d)) as H3c1.
  { unfold h3, h2. by rewrite lookup_insert_ne, lookup_insert_eq. }
  assert (h3 !! d = Some (PyList [])) as H3d.
  { unfold h3, h2, h1. rewrite 2!lookup_insert_ne by done. apply lookup_insert_eq. }
  assert (h4 !! c2 = Some (WordsCollectionObj d)) as H4c2.
  { unfold h4, h3. by rewrite lookup_insert_ne, lookup_insert_eq. }
  assert (h4 !! d = Some (PyList [x])) as H4d by apply lookup_insert_eq.
  assert (d <> it) as Hdit by (by eapply fresh_ne).
  assert (c1 <> it) as Hc1it.
  { eapply (fresh_ne h4). unfold h4. by rewrite lookup_insert_ne. }
  assert (c2 <> it) as Hc2it by (by eapply fresh_ne).
  exists c1, c2, d, (<[it := AlphabeticalOrderIteratorObj d false (0 + advance false)%Z]>
                    (<[it := AlphabeticalOrderIteratorObj d false 0%Z]> h4)).
  split; [|split; [done|]].
  - unfold words_shared_default.
    rewrite (bind_Ok _ _ h (WordsCollection.Build_defaults d) h1) by reflexivity.
    rewrite (bind_Ok _ _ h1 c1 h2) by reflexivity.
    rewrite (bind_Ok _ _ h2 c2 h3) by reflexivity.
    rewrite (bind_Ok _ _ h3 tt h4) by (by apply WordsCollection_add_item_eq).
    rewrite (bind_Ok _ _ h4 it (<[it := AlphabeticalOrderIteratorObj d false 0%Z]> h4))
      by (by apply WordsCollection_iter_eq).
    unfold bind, ret.
    rewrite (AlphabeticalOrderIterator_next_eq _ it d false 0%Z [x]).
    + done.
    + apply lookup_insert_eq.
    + by rewrite lookup_insert_ne.
  - rewrite !(lookup_insert_ne _ it) by done.
    split; [|by split].
    unfold h4. by rewrite lookup_insert_ne.
Qed.

Lemma calendar_shared_default_eq h x :
  exists c1 c2 d h',
    calendar_shared_default x h = (Ok (c1, c2, x), h')
    /\ c1 <> c2
    /\ h' !! c1 = Some (CollectionCalendarDaysObj d)
    /\ h' !! c2 = Some (CollectionCalendarDaysObj d)
    /\ h' !! d = Some (PyList [x]).
Proof.
  set (d := fresh (dom h)).
  set (h1 := <[d := PyList []]> h).
  set (c1 := fresh (dom h1)).
  set (h2 := <[c1 := CollectionCalendarDaysObj d]> h1).
  set (c2 := fresh (dom h2)).
  set (h3 := <[c2 := CollectionCalendarDaysObj d]> h2).
  set (h4 := <[d := PyList ([] ++ [x])]> h3).
  set (it := fresh (dom h4)).
  assert (d <> c1) as Hdc1.
  { apply (fresh_ne h1 d (PyList [])). apply lookup_insert_eq. }
  assert (c1 <> c2) as Hc12.
  { eapply (fresh_ne h2 c1). apply lookup_insert_eq. }
  assert (d <> c2) as Hdc2.
  { eapply (fresh_ne h2). unfold h2. rewrite lookup_insert_ne by done.
    apply lookup_insert_eq. }
  assert (h3 !! c1 = Some (CollectionCalendarDaysObj d)) as H3c1.
  { unfold h3, h2. by rewrite lookup_insert_ne, lookup_insert_eq. }
  assert (h3 !! d = Some (PyList [])) as H3d.
  { unfold h3, h2, h1. rewrite 2!lookup_insert_ne by done. apply lookup_insert_eq. }
  assert (h4 !! c2 = Some (CollectionCalendarDaysObj d)) as H4c2.
  { unfold h4, h3. by rewrite lookup_insert_ne, lookup_insert_eq. }
  assert (h4 !! d = Some (PyList [x])) as H4d by apply lookup_insert_eq.
  assert (d <> it) as Hdit by (by eapply fresh_ne).
  assert (c1 <> it) as Hc1it.
  { eapply (fresh_ne h4). unfold h4. by rewrite lookup_insert_ne. }
  assert (c2 <> it) as Hc2it by (by eapply fresh_ne).
  exists c1, c2, d, (<[it := CalendarIteratorObj d (0 + 1)%Z]>
                    (<[it := CalendarIteratorObj d 0%Z]> h4)).
  split; [|split; [done|]].
  - unfold calendar_shared_default.
    rewrite (bind_Ok _ _ h (CollectionCalendarDays.Build_defaults d) h1) by reflexivity.
    rewrite (bind_Ok _ _ h1 c1 h2) by reflexivity.
    rewrite (bind_Ok _ _ h2 c2 h3) by reflexivity.
    rewrite (bind_Ok _ _ h3 tt h4) by (by apply CollectionCalendarDays_add_item_eq).
    rewrite (bind_Ok _ _ h4 it (<[it := CalendarIteratorObj d 0%Z]> h4))
      by (by apply CollectionCalendarDays_iter_eq).
    unfold bind, ret.
    rewrite (CalendarIterator_next_eq _ it d 0%Z [x]).
    + done.
    + apply lookup_insert_eq.
    + by rewrite lookup_insert_ne.
  - rewrite !(lookup_insert_ne _ it) by done.
    split; [|by split].
    unfold h4. by rewrite lookup_insert_ne.
Qed.

(** C8. Two containers created without an initial sequence are distinct
    objects with one and the same list: the list made once for the
    default argument.  An item appended to the first is the item the
    cursor of the second returns.  This holds from every program state,
    for [WordsCollection] and for [CollectionCalendarDays]. *)
Theorem default_argument_is_shared h x :
  (exists c1 c2 d h',
      words_shared_default x h = (Ok (c1, c2, x), h')
      /\ c1 <> c2
      /\ h' !! c1 = Some (WordsCollectionObj d)
      /\ h' !! c2 = Some (WordsCollectionObj d)
      /\ h' !! d = Some (PyList [x]))
  /\ (exists c1 c2 d h',
      calendar_shared_default x h = (Ok (c1, c2, x), h')
      /\ c1 <> c2
      /\ h' !! c1 = Some (CollectionCalendarDaysObj d)
      /\ h' !! c2 = Some (CollectionCalendarDaysObj d)
      /\ h' !! d = Some (PyList [x])).
Proof. split; [apply words_shared_default_eq|apply calendar_shared_default_eq]. Qed.
End SharedDefault.

(** ** Append *)

Section Append.
Context {A : Type}.
Implicit Types (h : heap A) (l : list A) (w c it : loc) (x : A).

(** C9. [add_item] never raises.  After it the list of the container is
    the list it was with the item added at the end: one item longer,
    the earlier items first and in their order, the new item last even
    if an equal item is already there.  No other object changes; in
    particular every cursor keeps its position. *)
Theorem add_item_appends_at_end h w c l w' c' l' x :
  h !! w = Some (WordsCollectionObj c) ->
  h !! c = Some (PyList l) ->
  h !! w' = Some (CollectionCalendarDaysObj c') ->
  h !! c' = Some (PyList l') ->
  exists h1 h2,
    WordsCollection.add_item w x h = (Ok tt, h1)
    /\ CollectionCalendarDays.add_item w' x h = (Ok tt, h2)
    /\ h1 !! c = Some (PyList (l ++ [x]))
    /\ h2 !! c' = Some (PyList (l' ++ [x]))
    /\ (forall k : list A,
          length (k ++ [x]) = S (length k)
          /\ take (length k) (k ++ [x]) = k
          /\ last (k ++ [x]) = Some x)
    /\ (forall y, y <> c -> h1 !! y = h !! y)
    /\ (forall y, y <> c' -> h2 !! y = h !! y)
    /\ (forall it o, h !! it = Some o -> is_cursor o ->
          h1 !! it = Some o /\ h2 !! it = Some o).
Proof.
  intros Hw Hc Hw' Hc'.
  exists (<[c := PyList (l ++ [x])]> h), (<[c' := PyList (l' ++ [x])]> h).
  split; [by apply WordsCollection_add_item_eq|].
  split; [by apply CollectionCalendarDays_add_item_eq|].
  split; [apply lookup_insert_eq|]. split; [apply lookup_insert_eq|].
  split; [|split; [|split]].
  - intros k. rewrite length_app, take_app_length, last_snoc. simpl. split; [lia|done].
  - intros y Hy. by rewrite lookup_insert_ne.
  - intros y Hy. by rewrite lookup_insert_ne.
  - intros it o Hit Ho.
    rewrite !lookup_insert_ne; [done| |]; intros ->.
    + rewrite Hc' in Hit. by inversion Hit; subst.
    + rewrite Hc in Hit. by inversion Hit; subst.
Qed.

(** [add_items] extends the list by the items of another list, in
    their order. *)
Lemma add_items_extends h w c l i li :
  h !! w = Some (CollectionCalendarDaysObj c) ->
  h !! c = Some (PyList l) ->
  h !! i = Some (PyList li) ->
  CollectionCalendarDays.add_items w i h = (Ok tt, <[c := PyList (l ++ li)]> h).
Proof.
  intros Hw Hc Hi. unfold CollectionCalendarDays.add_items,
    CollectionCalendarDays.get_collection, bind, list_extend.
  rewrite Hw; simpl. by rewrite Hc, Hi.
Qed.
End Append.

(** ** The theorems on the drivers' scenario *)

Module ScenarioProps.
Import Scenario.
Local Open Scope string_scope.

(** The locations named in the scenario are the ones the constructors
    return. *)
Lemma setup_locations :
  (setup ∅).1 = Ok (words, days)
  /\ heap0 !! words = Some (WordsCollectionObj words_list)
  /\ heap0 !! days = Some (CollectionCalendarDaysObj days_list)
  /\ (WordsCollection.__iter__ words heap0).1 = Ok early_cursor.
Proof. repeat split; reflexivity. Qed.

Lemma failed_next_leaves_cursor_unchanged_witness :
  next early_cursor heap_early = (Raise StopIteration, heap_early)
  /\ heap_early = heap_early
  /\ heap_early !! early_cursor = heap_early !! early_cursor.
Proof.
  assert (next early_cursor heap_early = (Raise StopIteration, heap_early)) as H
    by reflexivity.
  split; [exact H|].
  exact (failed_next_leaves_cursor_unchanged heap_early heap_early early_cursor H).
Defined.

Lemma exhaustion_is_terminal_witness :
  next early_cursor heap_early = (Raise StopIteration, heap_early)
  /\ pull next early_cursor 3 heap_early
     = ([Raise StopIteration; Raise StopIteration; Raise StopIteration], heap_early).
Proof.
  assert (next early_cursor heap_early = (Raise StopIteration, heap_early)) as H
    by reflexivity.
  split; [exact H|].
  exact (proj1 (proj2 (exhaustion_is_terminal heap_early heap_early early_cursor H)) 3%nat).
Defined.

(** C3 asks that a cursor that has raised [StopIteration] raises it on
    every later call and never returns another item.  The code does not
    when the list grows after the cursor was exhausted.  A forward
    cursor over the empty container raises [StopIteration]; after one
    [add_item] its next call returns the item.  A reverse cursor over
    one item returns it and then raises [StopIteration]; after one more
    [add_item] its next call returns the first item a second time. *)
Lemma exhausted_cursor_returns_an_item_after_append :
  (next early_cursor heap_early = (Raise StopIteration, heap_early)
   /\ (next early_cursor
         (WordsCollection.add_item words "First" heap_early).2).1 = Ok "First")
  /\ (heap_late !! words_list = Some (PyList ["First"])
      /\ next late_cursor heap_late = (Raise StopIteration, heap_late)
      /\ (next late_cursor
            (WordsCollection.add_item words "Second" heap_late).2).1 = Ok "First").
Proof. repeat split; reflexivity. Qed.

Lemma cursor_state_machine_witness :
  cursor_shape (fun c p => AlphabeticalOrderIteratorObj (A := string) c true p) (advance true)
  /\ heap_late !! late_cursor = Some (AlphabeticalOrderIteratorObj words_list true (-2))
  /\ heap_late !! words_list = Some (PyList ["First"])
  /\ (state_after (next late_cursor heap_late).1 = Exhausted
      <-> ~ (- Z.of_nat (length ["First"]) <= -2 < Z.of_nat (length ["First"]))%Z).
Proof.
  assert (heap_late !! late_cursor = Some (AlphabeticalOrderIteratorObj words_list true (-2)))
    as Hit by reflexivity.
  assert (heap_late !! words_list = Some (PyList ["First"])) as Hc by reflexivity.
  split; [constructor|]. split; [exact Hit|]. split; [exact Hc|].
  exact (proj1 (proj2 (cursor_state_machine _ _ heap_late late_cursor words_list (-2)%Z
                         ["First"] (shape_alphabetical true) Hit Hc))).
Defined.

Lemma interleaved_cursors_do_not_interfere_witness :
  heap3 !! words = Some (WordsCollectionObj words_list)
  /\ heap3 !! words_list = Some (PyList three)
  /\ exists fwd bwd h2,
       (it1 <~ WordsCollection.__iter__ words ;;
        it2 <~ WordsCollection.get_reverse_iterator words ;;
        ret (it1, it2)) heap3 = (Ok (fwd, bwd), h2)
       /\ fwd <> bwd
       /\ let sched := (fun b : bool => if b then fwd else bwd) <$> order in
          forall it, it = fwd \/ it = bwd ->
            results_of it (run next sched h2).1 = (pull next it (calls_on it sched) h2).1.
Proof.
  assert (heap3 !! words = Some (WordsCollectionObj words_list)) as Hw by reflexivity.
  assert (heap3 !! words_list = Some (PyList three)) as Hc by reflexivity.
  split; [exact Hw|]. split; [exact Hc|].
  destruct (interleaved_cursors_do_not_interfere order heap3 words words_list three Hw Hc)
    as (fwd & bwd & h2 & Hmk & Hne & _ & _ & Hrun).
  exists fwd, bwd, h2. split; [exact Hmk|]. split; [exact Hne|].
  intros sched it Hit. exact (proj1 (Hrun it Hit)).
Defined.

(** The same order of calls, evaluated: each cursor sees its own
    traversal. *)
Lemma interleaved_cursors_on_three_items :
  let fwd := 5%positive in
  let bwd := 6%positive in
  let h2 := (WordsCollection.get_reverse_iterator words
               (WordsCollection.__iter__ words heap3).2).2 in
  let tr := (run next ((fun b : bool => if b then fwd else bwd) <$> order) h2).1 in
  results_of fwd tr = [Ok "First"; Ok "Second"; Ok "Third"; Raise StopIteration]
  /\ results_of bwd tr = [Ok "Third"; Ok "Second"; Ok "First"; Raise StopIteration].
Proof. split; reflexivity. Qed.

Lemma add_item_appends_at_end_witness :
  heap3 !! words = Some (WordsCollectionObj words_list)
  /\ heap3 !! words_list = Some (PyList three)
  /\ heap3 !! days = Some (CollectionCalendarDaysObj days_list)
  /\ heap3 !! days_list = Some (PyList [])
  /\ exists h1 h2,
       WordsCollection.add_item words "Second" heap3 = (Ok tt, h1)
       /\ CollectionCalendarDays.add_item days "Second" heap3 = (Ok tt, h2)
       /\ h1 !! words_list = Some (PyList (three ++ ["Second"]))
       /\ h2 !! days_list = Some (PyList ([] ++ ["Second"])).
Proof.
  assert (heap3 !! words = Some (WordsCollectionObj words_list)) as Hw by reflexivity.
  assert (heap3 !! words_list = Some (PyList three)) as Hc by reflexivity.
  assert (heap3 !! days = Some (CollectionCalendarDaysObj days_list)) as Hw' by reflexivity.
  assert (heap3 !! days_list = Some (PyList [])) as Hc' by reflexivity.
  split; [exact Hw|]. split; [exact Hc|]. split; [exact Hw'|]. split; [exact Hc'|].
  destruct (add_item_appends_at_end heap3 words words_list three days days_list []
              "Second" Hw Hc Hw' Hc')
    as (h1 & h2 & H1 & H2 & H3 & H4 & _).
  exists h1, h2. split; [exact H1|]. split; [exact H2|]. split; [exact H3|exact H4].
Defined.

End ScenarioProps.

(** * Further properties of the two iterator files *)

(** ** Any number of calls on a cursor over any list *)

Section AnyNumberOfCalls.
Context {A : Type}.
Implicit Types (h : heap A) (l : list A) (it c : loc).

Lemma iterate_add {S R : Type} (step : S -> R * S) (n m : nat) (s : S) :
  iterate step (n + m) s =
    ((iterate step n s).1 ++ (iterate step m (iterate step n s).2).1,
     (iterate step m (iterate step n s).2).2).
Proof.
  revert s. induction n as [|n IH]; intros s.
  - simpl. by destruct (iterate step m s).
  - change (Datatypes.S n + m)%nat with (Datatypes.S (n + m)).
    rewrite !iterate_S. destruct (step s) as [r s1]. rewrite IH.
    by destruct (iterate step n s1) as [rs s2].
Qed.

Lemma iterate_length {S R : Type} (step : S -> R * S) (n : nat) (s : S) :
  length (iterate step n s).1 = n.
Proof.
  revert s. induction n as [|n IH]; intros s; [done|].
  rewrite iterate_S. destruct (step s) as [r s1]. specialize (IH s1).
  destruct (iterate step n s1) as [rs s2]. simpl in *. by rewrite IH.
Qed.

(** If [len + 1] pulls give [xs] and then the end signal for every later
    pull, [n] pulls give the first [n] of [xs] and the end signal for
    the rest. *)
Lemma iterate_prefix {S R : Type} (step : S -> R * S) (s s' : S) (xs : list R) (stop : R) :
  iterate step (Datatypes.S (length xs)) s = (xs ++ [stop], s') ->
  (forall m, iterate step m s' = (replicate m stop, s')) ->
  forall n, (iterate step n s).1 = take n xs ++ replicate (n - length xs) stop.
Proof.
  intros Hall Hrest n. destruct (decide (n <= length xs)%nat) as [Hle|Hgt].
  - replace (n - length xs)%nat with 0%nat by lia. simpl. rewrite app_nil_r.
    pose proof (iterate_add step n (Datatypes.S (length xs) - n) s) as Hadd.
    replace (n + (Datatypes.S (length xs) - n))%nat with (Datatypes.S (length xs))
      in Hadd by lia.
    rewrite Hall in Hadd. inversion Hadd as [[Hres Hst]].
    apply (f_equal (take n)) in Hres.
    rewrite take_app_le in Hres by lia.
    rewrite take_app_length' in Hres by (symmetry; apply iterate_length).
    done.
  - pose proof (iterate_add step (Datatypes.S (length xs)) (n - Datatypes.S (length xs)) s)
      as Hadd.
    replace (Datatypes.S (length xs) + (n - Datatypes.S (length xs)))%nat with n
      in Hadd by lia.
    rewrite Hadd, Hall. simpl. rewrite Hrest. simpl.
    rewrite take_ge by lia. rewrite <- app_assoc. f_equal.
    replace (n - length xs)%nat with (Datatypes.S (n - Datatypes.S (length xs))) by lia.
    done.
Qed.

Lemma pull_forward_any h it c l (n : nat) :
  h !! it = Some (AlphabeticalOrderIteratorObj c false 0%Z)
  \/ h !! it = Some (CalendarIteratorObj c 0%Z) ->
  h !! c = Some (PyList l) ->
  (pull next it n h).1 =
    (Ok <$> take n l) ++ replicate (n - length l) (Raise StopIteration).
Proof.
  intros Hit Hc.
  assert (exists h',
    pull next it (S (length l)) h = ((Ok <$> l) ++ [Raise StopIteration], h')
    /\ forall m, pull next it m h' = (replicate m (Raise StopIteration), h'))
    as (h' & Hall & Hrest).
  { destruct Hit as [Hit|Hit].
    - eexists. split; [by apply AlphabeticalOrderIterator_pull_forward|].
      apply (pull_exhausted next (fun c p => AlphabeticalOrderIteratorObj c false p) 1%Z
               (cursor_shape_next_eq _ _ (shape_alphabetical false)))
        with (c := c) (p := Z.of_nat (length l)) (l := l).
      + apply lookup_insert_eq.
      + rewrite lookup_insert_ne; [done|]. intros ->. by rewrite Hit in Hc.
      + apply index_None. lia.
    - eexists. split; [by apply CalendarIterator_pull_forward|].
      apply (pull_exhausted next CalendarIteratorObj 1%Z
               (cursor_shape_next_eq _ _ shape_calendar))
        with (c := c) (p := Z.of_nat (length l)) (l := l).
      + apply lookup_insert_eq.
      + rewrite lookup_insert_ne; [done|]. intros ->. by rewrite Hit in Hc.
      + apply index_None. lia. }
  unfold pull in *.
  rewrite <- (length_fmap Ok l) in Hall.
  rewrite (iterate_prefix _ _ _ _ _ Hall Hrest n).
  by rewrite length_fmap, fmap_take.
Qed.

(** X1.  A forward cursor of either class, newly made over a list that holds
    [l] (however the items got there), gives on [n] calls of [next] the
    first [n] items of [l] in order and [StopIteration] for every call
    beyond the last item, for every [n]. *)
Theorem forward_cursor_any_number_of_calls h it c l (n : nat) :
  h !! it = Some (AlphabeticalOrderIteratorObj c false 0%Z)
  \/ h !! it = Some (CalendarIteratorObj c 0%Z) ->
  h !! c = Some (PyList l) ->
  (pull next it n h).1 =
    (Ok <$> take n l) ++ replicate (n - length l) (Raise StopIteration).
Proof. apply pull_forward_any. Qed.

(** X2.  A reverse cursor newly made over a list that holds [l] gives on [n]
    calls of [next] the first [n] items of [l] read backwards and
    [StopIteration] for every call beyond the first item of [l]. *)
Theorem backward_cursor_any_number_of_calls h it c l (n : nat) :
  h !! it = Some (AlphabeticalOrderIteratorObj c true (-1)%Z) ->
  h !! c = Some (PyList l) ->
  (pull next it n h).1 =
    (Ok <$> take n (reverse l)) ++ replicate (n - length l) (Raise StopIteration).
Proof.
  intros Hit Hc.
  assert (exists h',
    pull next it (S (length l)) h = ((Ok <$> reverse l) ++ [Raise StopIteration], h')
    /\ forall m, pull next it m h' = (replicate m (Raise StopIteration), h'))
    as (h' & Hall & Hrest).
  { eexists. split; [by apply AlphabeticalOrderIterator_pull_backward|].
    apply (pull_exhausted next (fun c p => AlphabeticalOrderIteratorObj c true p) (-1)%Z
             (cursor_shape_next_eq _ _ (shape_alphabetical true)))
      with (c := c) (p := (-1 - Z.of_nat (length l))%Z) (l := l).
    - apply lookup_insert_eq.
    - rewrite lookup_insert_ne; [done|]. intros ->. by rewrite Hit in Hc.
    - apply index_None. lia. }
  unfold pull in *.
  rewrite <- (length_reverse l), <- (length_fmap Ok (reverse l)) in Hall.
  rewrite (iterate_prefix _ _ _ _ _ Hall Hrest n).
  by rewrite length_fmap, length_reverse, fmap_take.
Qed.
End AnyNumberOfCalls.

(** ** Appends while a cursor is in use *)

Section AppendsDuringTraversal.
Context {A : Type}.
Implicit Types (h : heap A) (l items : list A) (w it c : loc).

Lemma pulls_eq (nxt : loc -> M A A) it n h :
  pulls nxt it n h = (Ok (pull nxt it n h).1, (pull nxt it n h).2).
Proof. unfold pulls. by destruct (pull nxt it n h). Qed.

(** The cursor after [k] calls that all returned an item. *)
Lemma pull_forward_prefix it c l (k : nat) h :
  h !! it = Some (AlphabeticalOrderIteratorObj c false 0%Z) ->
  h !! c = Some (PyList l) ->
  (k <= length l)%nat ->
  pull next it k h =
    (Ok <$> take k l, <[it := AlphabeticalOrderIteratorObj c false (Z.of_nat k)]> h).
Proof.
  intros Hit Hc. revert h Hit Hc.
  assert (forall j (n : nat) h,
    h !! it = Some (AlphabeticalOrderIteratorObj c false (Z.of_nat j)) ->
    h !! c = Some (PyList l) ->
    (j + n <= length l)%nat ->
    pull next it n h =
      (Ok <$> take n (drop j l),
       <[it := AlphabeticalOrderIteratorObj c false (Z.of_nat (j + n))]> h)) as Hgen.
  { intros j n. revert j. unfold pull. induction n as [|n IH]; intros j h Hit Hc Hle.
    - simpl. rewrite Nat.add_0_r. by rewrite insert_id.
    - assert (is_Some (l !! j)) as [v Hv] by (apply lookup_lt_is_Some; lia).
      assert (it <> c) as Hne by (intros ->; by rewrite Hit in Hc).
      rewrite iterate_S, (AlphabeticalOrderIterator_next_eq _ _ _ _ _ _ Hit Hc).
      rewrite index_nonneg, Nat2Z.id, Hv by lia.
      rewrite (IH (S j)).
      + rewrite insert_insert_eq, (drop_S _ _ _ Hv). simpl.
        do 3 f_equal. lia.
      + rewrite lookup_insert_eq. unfold advance. do 2 f_equal. lia.
      + by rewrite lookup_insert_ne.
      + lia. }
  intros h Hit Hc Hle. rewrite (Hgen 0%nat k h); done.
Qed.

Lemma pull_backward_prefix it c l (k : nat) h :
  h !! it = Some (AlphabeticalOrderIteratorObj c true (-1)%Z) ->
  h !! c = Some (PyList l) ->
  (k <= length l)%nat ->
  pull next it k h =
    (Ok <$> take k (reverse l),
     <[it := AlphabeticalOrderIteratorObj c true (-1 - Z.of_nat k)%Z]> h).
Proof.
  intros Hit Hc. revert h Hit Hc.
  assert (forall j (n : nat) h,
    h !! it = Some (AlphabeticalOrderIteratorObj c true (-1 - Z.of_nat j)%Z) ->
    h !! c = Some (PyList l) ->
    (j + n <= length l)%nat ->
    pull next it n h =
      (Ok <$> take n (drop j (reverse l)),
       <[it := AlphabeticalOrderIteratorObj c true (-1 - Z.of_nat (j + n))%Z]> h)) as Hgen.
  { intros j n. revert j. unfold pull. induction n as [|n IH]; intros j h Hit Hc Hle.
    - simpl. rewrite Nat.add_0_r. by rewrite insert_id.
    - assert (is_Some (reverse l !! j)) as [v Hv].
      { apply lookup_lt_is_Some. rewrite length_reverse. lia. }
      assert (l !! (length l - S j)%nat = Some v) as Hv'.
      { rewrite reverse_lookup in Hv by lia. done. }
      assert (it <> c) as Hne by (intros ->; by rewrite Hit in Hc).
      rewrite iterate_S, (AlphabeticalOrderIterator_next_eq _ _ _ _ _ _ Hit Hc).
      rewrite index_neg by lia.
      destruct (Z.leb_spec 0 (-1 - Z.of_nat j + Z.of_nat (length l))) as [_|?]; [|lia].
      replace (Z.to_nat (-1 - Z.of_nat j + Z.of_nat (length l)))
        with (length l - S j)%nat by lia.
      rewrite Hv'.
      rewrite (IH (S j)).
      + rewrite insert_insert_eq, (drop_S _ _ _ Hv). simpl.
        do 3 f_equal. lia.
      + rewrite lookup_insert_eq. unfold advance. do 2 f_equal. lia.
      + by rewrite lookup_insert_ne.
      + lia. }
  intros h Hit Hc Hle. rewrite (Hgen 0%nat k h); done.
Qed.

Lemma words_with_appends_state h w c l (reverse : bool) (k : nat) items :
  h !! w = Some (WordsCollectionObj c) ->
  h !! c = Some (PyList l) ->
  let it := fresh (dom h) in
  let p := (if reverse then -1 - Z.of_nat k else Z.of_nat k)%Z in
  let h1 := <[it := AlphabeticalOrderIteratorObj c reverse (if reverse then -1 else 0)%Z]> h in
  let h2 := <[it := AlphabeticalOrderIteratorObj c reverse p]> h1 in
  let h3 := <[c := PyList (l ++ items)]> h2 in
  it <> c /\ it <> w
  /\ h1 !! it = Some (AlphabeticalOrderIteratorObj c reverse (if reverse then -1 else 0)%Z)
  /\ h1 !! c = Some (PyList l)
  /\ for_each (WordsCollection.add_item w) items h2 = (Ok tt, h3)
  /\ h3 !! it = Some (AlphabeticalOrderIteratorObj c reverse p)
  /\ h3 !! c = Some (PyList (l ++ items)).
Proof.
  intros Hw Hc it p h1 h2 h3.
  assert (it <> c) as Hic by (apply not_eq_sym; by eapply fresh_ne).
  assert (it <> w) as Hiw by (apply not_eq_sym; by eapply fresh_ne).
  assert (w <> c) as Hwc by (intros ->; by rewrite Hw in Hc).
  split; [done|]. split; [done|].
  split; [apply lookup_insert_eq|].
  split; [by unfold h1; rewrite lookup_insert_ne|].
  split.
  - apply (for_each_append _ (WordsCollectionObj c)); try done.
    + intros. by apply WordsCollection_add_item_eq.
    + unfold h2, h1. by rewrite !lookup_insert_ne.
    + unfold h2, h1. by rewrite !lookup_insert_ne.
  - split.
    + unfold h3. rewrite lookup_insert_ne by done. apply lookup_insert_eq.
    + apply lookup_insert_eq.
Qed.

Lemma words_forward_with_appends_eq h w c l (k : nat) items :
  h !! w = Some (WordsCollectionObj c) ->
  h !! c = Some (PyList l) ->
  (k <= length l)%nat ->
  (words_forward_with_appends w k items (S (length l + length items - k)) h).1 =
    Ok (Ok <$> take k l, (Ok <$> drop k (l ++ items)) ++ [Raise StopIteration]).
Proof.
  intros Hw Hc Hk.
  destruct (words_with_appends_state h w c l false k items Hw Hc)
    as (Hic & Hiw & H1it & H1c & Hadd & H3it & H3c).
  unfold words_forward_with_appends.
  rewrite (bind_Ok _ _ h _ _ (WordsCollection_iter_eq _ _ _ Hw)).
  rewrite (bind_Ok _ _ _ _ _ (pulls_eq _ _ _ _)).
  rewrite (pull_forward_prefix _ c l k _ H1it H1c Hk). cbn [fst snd].
  rewrite (bind_Ok _ _ _ _ _ Hadd).
  rewrite (bind_Ok _ _ _ _ _ (pulls_eq _ _ _ _)).
  rewrite (pull_forward next (fun c p => AlphabeticalOrderIteratorObj c false p) 1%Z
             (cursor_shape_next_eq _ _ (shape_alphabetical false))
             (cursor_shape_not_list _ _ (shape_alphabetical false))
             _ c (l ++ items) eq_refl (length l + length items - k) k _ H3it H3c).
  - done.
  - rewrite length_app. lia.
Qed.

Lemma words_backward_with_appends_eq h w c l (k : nat) items :
  h !! w = Some (WordsCollectionObj c) ->
  h !! c = Some (PyList l) ->
  (k <= length l)%nat ->
  (words_backward_with_appends w k items (S (length l + length items - k)) h).1 =
    Ok (Ok <$> take k (reverse l),
        (Ok <$> reverse (take (length l + length items - k) (l ++ items)))
          ++ [Raise StopIteration]).
Proof.
  intros Hw Hc Hk.
  destruct (words_with_appends_state h w c l true k items Hw Hc)
    as (Hic & Hiw & H1it & H1c & Hadd & H3it & H3c).
  unfold words_backward_with_appends.
  rewrite (bind_Ok _ _ h _ _ (WordsCollection_get_reverse_iterator_eq _ _ _ Hw)).
  rewrite (bind_Ok _ _ _ _ _ (pulls_eq _ _ _ _)).
  rewrite (pull_backward_prefix _ c l k _ H1it H1c Hk). cbn [fst snd].
  rewrite (bind_Ok _ _ _ _ _ Hadd).
  rewrite (bind_Ok _ _ _ _ _ (pulls_eq _ _ _ _)).
  rewrite (pull_backward next (fun c p => AlphabeticalOrderIteratorObj c true p) (-1)%Z
             (cursor_shape_next_eq _ _ (shape_alphabetical true))
             (cursor_shape_not_list _ _ (shape_alphabetical true))
             _ c (l ++ items) eq_refl (length l + length items - k) k _ H3it H3c).
  - done.
  - rewrite length_app. lia.
Qed.

(** X5.  A forward traversal in which items are appended before the cursor
    has signalled the end returns every item once and in order, the
    appended ones after the ones that were there, and then signals the
    end: the cursor reads the list as it is at each call. *)
Theorem forward_cursor_sees_items_appended_during_traversal h w c l (k : nat) items :
  h !! w = Some (WordsCollectionObj c) ->
  h !! c = Some (PyList l) ->
  (k <= length l)%nat ->
  exists before after,
    (words_forward_with_appends w k items (S (length l + length items - k)) h).1 =
      Ok (before, after)
    /\ before = Ok <$> take k l
    /\ before ++ after = (Ok <$> l ++ items) ++ [Raise StopIteration].
Proof.
  intros Hw Hc Hk. eexists _, _.
  split; [by apply (words_forward_with_appends_eq h w c l k items)|].
  split; [done|].
  rewrite app_assoc, <- fmap_app. do 2 f_equal.
  rewrite drop_app_le by done. by rewrite app_assoc, take_drop.
Qed.

(** X6.  A reverse cursor counts from the end of the list as it is at each
    call.  After [k] calls, and [m] items appended meanwhile, it goes on
    with the item [k] places before the end of the longer list and runs
    backwards to the first item: the last [k] items of the longer list
    are skipped, whether they are old or new. *)
Theorem backward_cursor_counts_from_the_current_end h w c l (k : nat) items :
  h !! w = Some (WordsCollectionObj c) ->
  h !! c = Some (PyList l) ->
  (k <= length l)%nat ->
  exists before after,
    (words_backward_with_appends w k items (S (length l + length items - k)) h).1 =
      Ok (before, after)
    /\ before = Ok <$> take k (reverse l)
    /\ after = (Ok <$> drop k (reverse (l ++ items))) ++ [Raise StopIteration].
Proof.
  intros Hw Hc Hk. eexists _, _.
  split; [by apply (words_backward_with_appends_eq h w c l k items)|].
  split; [done|]. do 2 f_equal.
  rewrite <- (reverse_involutive (drop k (reverse (l ++ items)))).
  f_equal. rewrite reverse_drop, reverse_involutive, length_reverse, length_app.
  done.
Qed.

(** X7.  After one [add_item], the first call on a reverse cursor that has
    already returned items returns once more the item it returned last,
    and the appended item is never returned. *)
Theorem backward_cursor_repeats_an_item_after_append h w c l (k : nat) x :
  h !! w = Some (WordsCollectionObj c) ->
  h !! c = Some (PyList l) ->
  (1 <= k <= length l)%nat ->
  exists before after v,
    (words_backward_with_appends w k [x] (S (length l + 1 - k)) h).1 = Ok (before, after)
    /\ last before = Some (Ok v)
    /\ head after = Some (Ok v)
    /\ l !! (length l - k)%nat = Some v
    /\ after = (Ok <$> reverse (take (length l + 1 - k) l)) ++ [Raise StopIteration].
Proof.
  intros Hw Hc [Hk1 Hk].
  assert (is_Some (l !! (length l - k)%nat)) as [v Hv] by (apply lookup_lt_is_Some; lia).
  pose proof (words_backward_with_appends_eq h w c l k [x] Hw Hc Hk) as Heq.
  simpl length in Heq.
  assert (take (length l + 1 - k) (l ++ [x]) = take (length l + 1 - k) l) as Htake
    by (apply take_app_le; lia).
  rewrite Htake in Heq.
  assert (take (length l + 1 - k) l = take (length l - k) l ++ [v]) as Hsnoc.
  { replace (length l + 1 - k)%nat with (S (length l - k)) by lia.
    by apply take_S_r. }
  eexists _, _, v. split; [exact Heq|]. split; [|split; [|split; [done|done]]].
  - rewrite fmap_last, last_lookup, length_take, length_reverse.
    replace (Nat.pred (k `min` length l)) with (k - 1)%nat by lia.
    rewrite lookup_take_lt, reverse_lookup by lia.
    replace (length l - S (k - 1))%nat with (length l - k)%nat by lia.
    by rewrite Hv.
  - by rewrite Hsnoc, reverse_snoc.
Qed.
End AppendsDuringTraversal.

(** ** Containers made over a list of the caller *)

Section CallerList.
Context {A : Type}.
Implicit Types (h : heap A) (l : list A) (w c lst : loc) (x : A).

Lemma words_over_list_eq dflt h lst l x :
  h !! lst = Some (PyList l) ->
  let w := fresh (dom h) in
  words_over_list dflt lst x h =
    (Ok w, <[lst := PyList (l ++ [x])]> (<[w := WordsCollectionObj lst]> h))
  /\ w <> lst.
Proof.
  intros Hl w.
  assert (w <> lst) as Hne by (apply not_eq_sym; by eapply fresh_ne).
  split; [|done]. unfold words_over_list.
  rewrite (bind_Ok _ _ h w (<[w := WordsCollectionObj lst]> h)) by reflexivity.
  rewrite (bind_Ok _ _ _ tt (<[lst := PyList (l ++ [x])]> (<[w := WordsCollectionObj lst]> h))).
  - done.
  - apply WordsCollection_add_item_eq; [apply lookup_insert_eq|].
    by rewrite lookup_insert_ne.
Qed.

Lemma days_over_list_eq dflt h lst l x :
  h !! lst = Some (PyList l) ->
  let w := fresh (dom h) in
  days_over_list dflt lst x h =
    (Ok w, <[lst := PyList (l ++ [x])]> (<[w := CollectionCalendarDaysObj lst]> h))
  /\ w <> lst.
Proof.
  intros Hl w.
  assert (w <> lst) as Hne by (apply not_eq_sym; by eapply fresh_ne).
  split; [|done]. unfold days_over_list.
  rewrite (bind_Ok _ _ h w (<[w := CollectionCalendarDaysObj lst]> h)) by reflexivity.
  rewrite (bind_Ok _ _ _ tt
             (<[lst := PyList (l ++ [x])]> (<[w := CollectionCalendarDaysObj lst]> h))).
  - done.
  - apply CollectionCalendarDays_add_item_eq; [apply lookup_insert_eq|].
    by rewrite lookup_insert_ne.
Qed.

(** X9.  A container made over a list of the caller keeps that list, not a
    copy of it: an item appended through the container is in the
    caller's list, and no object that existed before, the list of the
    default argument among them, is changed.  This holds for both
    container classes. *)
Theorem container_keeps_the_list_it_is_given
    (wd : WordsCollection.defaults) (cd : CollectionCalendarDays.defaults) h lst l x :
  h !! lst = Some (PyList l) ->
  exists w h1 w' h2,
    words_over_list wd lst x h = (Ok w, h1)
    /\ days_over_list cd lst x h = (Ok w', h2)
    /\ h1 !! w = Some (WordsCollectionObj lst)
    /\ h2 !! w' = Some (CollectionCalendarDaysObj lst)
    /\ h1 !! lst = Some (PyList (l ++ [x]))
    /\ h2 !! lst = Some (PyList (l ++ [x]))
    /\ (forall y o, h !! y = Some o -> y <> lst -> h1 !! y = Some o /\ h2 !! y = Some o).
Proof.
  intros Hl.
  destruct (words_over_list_eq wd h lst l x Hl) as [H1 Hne].
  destruct (days_over_list_eq cd h lst l x Hl) as [H2 _].
  eexists _, _, _, _. split; [exact H1|]. split; [exact H2|].
  split; [by rewrite lookup_insert_ne, lookup_insert_eq|].
  split; [by rewrite lookup_insert_ne, lookup_insert_eq|].
  split; [apply lookup_insert_eq|]. split; [apply lookup_insert_eq|].
  intros y o Hy Hyl.
  assert (y <> fresh (dom h)) as Hyw by (by eapply fresh_ne).
  by rewrite !lookup_insert_ne.
Qed.

(** X10.  [add_items] does what one [add_item] for each item that the given
    list holds when it is called, in the order of the list, does; the
    given list may be the list of the container itself, whose items are
    then doubled. *)
Theorem add_items_is_repeated_add_item h w c l i li :
  h !! w = Some (CollectionCalendarDaysObj c) ->
  h !! c = Some (PyList l) ->
  h !! i = Some (PyList li) ->
  CollectionCalendarDays.add_items w i h
    = for_each (CollectionCalendarDays.add_item w) li h
  /\ CollectionCalendarDays.add_items w i h = (Ok tt, <[c := PyList (l ++ li)]> h)
  /\ (i = c -> CollectionCalendarDays.add_items w i h = (Ok tt, <[c := PyList (l ++ l)]> h)).
Proof.
  intros Hw Hc Hi.
  assert (CollectionCalendarDays.add_items w i h = (Ok tt, <[c := PyList (l ++ li)]> h))
    as Heq.
  { unfold CollectionCalendarDays.add_items, CollectionCalendarDays.get_collection,
      bind, list_extend.
    rewrite Hw; simpl. by rewrite Hc, Hi. }
  split; [|split; [done|]].
  - rewrite Heq. symmetry.
    apply (for_each_append _ (CollectionCalendarDaysObj c)); try done.
    intros. by apply CollectionCalendarDays_add_item_eq.
  - intros ->. rewrite Hc in Hi. inversion Hi; subst. done.
Qed.

End CallerList.

(** ** Consuming a whole traversal *)

Section Drain.
Context {A : Type}.
Implicit Types (h : heap A) (l xs acc : list A) (it c : loc).

Lemma drain_of_pull xs : forall (fuel : nat) it acc h h',
  pull next it (S (length xs)) h = ((Ok <$> xs) ++ [Raise StopIteration], h') ->
  (length xs < fuel)%nat ->
  drain fuel it acc h = Some (Ok (acc ++ xs), h').
Proof.
  unfold pull. induction xs as [|x xs IH]; intros fuel it acc h h' Hpull Hfuel.
  - destruct fuel as [|fuel]; [simpl in Hfuel; lia|].
    simpl in Hpull. destruct (next it h) as [r h1] eqn:Hn.
    inversion Hpull; subst. simpl. by rewrite Hn, app_nil_r.
  - destruct fuel as [|fuel]; [simpl in Hfuel; lia|].
    simpl length in Hpull. rewrite iterate_S in Hpull.
    destruct (next it h) as [r h1] eqn:Hn.
    destruct (iterate (next it) (S (length xs)) h1) as [rs h2] eqn:Hrest.
    inversion Hpull; subst. simpl. rewrite Hn.
    rewrite (IH fuel it (acc ++ [x]) h1 h' Hrest) by (simpl in Hfuel; lia).
    by rewrite <- app_assoc.
Qed.

(** Draining a cursor that has signalled the end gives nothing more. *)
Lemma drain_exhausted mk step it c p l h (fuel : nat) :
  cursor_shape mk step ->
  h !! it = Some (mk c p) ->
  h !! c = Some (PyList l) ->
  index l p = None ->
  (1 <= fuel)%nat ->
  drain fuel it [] h = Some (Ok [], h).
Proof.
  intros Hshape Hit Hc Hidx Hfuel. destruct fuel as [|fuel]; [lia|].
  simpl. by rewrite (cursor_shape_next_eq _ _ Hshape _ _ _ _ _ Hit Hc), Hidx.
Qed.
End Drain.

Section Join.
Implicit Types (h : heap string) (l : list string) (w it c : loc) (sep : string).

Lemma join_cursor_forward h it c l sep (fuel : nat) :
  h !! it = Some (AlphabeticalOrderIteratorObj c false 0%Z) ->
  h !! c = Some (PyList l) ->
  (length l < fuel)%nat ->
  join_cursor fuel sep it h =
    Some (Ok (String.concat sep l),
          <[it := AlphabeticalOrderIteratorObj c false (Z.of_nat (length l))]> h).
Proof.
  intros Hit Hc Hfuel. unfold join_cursor.
  by rewrite (drain_of_pull l fuel it [] h _
                (AlphabeticalOrderIterator_pull_forward h it c l Hit Hc) Hfuel).
Qed.

Lemma join_cursor_backward h it c l sep (fuel : nat) :
  h !! it = Some (AlphabeticalOrderIteratorObj c true (-1)%Z) ->
  h !! c = Some (PyList l) ->
  (length l < fuel)%nat ->
  join_cursor fuel sep it h =
    Some (Ok (String.concat sep (reverse l)),
          <[it := AlphabeticalOrderIteratorObj c true (-1 - Z.of_nat (length l))%Z]> h).
Proof.
  intros Hit Hc Hfuel. unfold join_cursor.
  pose proof (AlphabeticalOrderIterator_pull_backward h it c l Hit Hc) as Hpull.
  rewrite <- (length_reverse l) in Hpull at 1.
  by rewrite (drain_of_pull (reverse l) fuel it [] h _ Hpull)
    by (by rewrite length_reverse).
Qed.

Lemma join_cursor_calendar h it c l sep (fuel : nat) :
  h !! it = Some (CalendarIteratorObj c 0%Z) ->
  h !! c = Some (PyList l) ->
  (length l < fuel)%nat ->
  join_cursor fuel sep it h =
    Some (Ok (String.concat sep l),
          <[it := CalendarIteratorObj c (Z.of_nat (length l))]> h).
Proof.
  intros Hit Hc Hfuel. unfold join_cursor.
  by rewrite (drain_of_pull l fuel it [] h _
                (CalendarIterator_pull_forward h it c l Hit Hc) Hfuel).
Qed.

Lemma join_words_eq h w c l sep (fuel : nat) :
  h !! w = Some (WordsCollectionObj c) ->
  h !! c = Some (PyList l) ->
  (length l < fuel)%nat ->
  exists h1,
    join_words fuel sep w h = Some (Ok (String.concat sep l), h1)
    /\ h1 !! w = Some (WordsCollectionObj c)
    /\ h1 !! c = Some (PyList l).
Proof.
  intros Hw Hc Hfuel.
  assert (fresh (dom h) <> c) as Hic by (apply not_eq_sym; by eapply fresh_ne).
  assert (fresh (dom h) <> w) as Hiw by (apply not_eq_sym; by eapply fresh_ne).
  eexists. split.
  - unfold join_words. rewrite (WordsCollection_iter_eq _ _ _ Hw).
    apply join_cursor_forward; [apply lookup_insert_eq| |done].
    by rewrite lookup_insert_ne.
  - by rewrite insert_insert_eq, !lookup_insert_ne.
Qed.

Lemma join_words_reversed_eq h w c l sep (fuel : nat) :
  h !! w = Some (WordsCollectionObj c) ->
  h !! c = Some (PyList l) ->
  (length l < fuel)%nat ->
  exists h1,
    join_words_reversed fuel sep w h = Some (Ok (String.concat sep (reverse l)), h1)
    /\ h1 !! w = Some (WordsCollectionObj c)
    /\ h1 !! c = Some (PyList l).
Proof.
  intros Hw Hc Hfuel.
  assert (fresh (dom h) <> c) as Hic by (apply not_eq_sym; by eapply fresh_ne).
  assert (fresh (dom h) <> w) as Hiw by (apply not_eq_sym; by eapply fresh_ne).
  eexists. split.
  - unfold join_words_reversed. rewrite (WordsCollection_get_reverse_iterator_eq _ _ _ Hw).
    apply join_cursor_backward; [apply lookup_insert_eq| |done].
    by rewrite lookup_insert_ne.
  - by rewrite insert_insert_eq, !lookup_insert_ne.
Qed.

(** X12.  [sep.join(collection)] returns the items of the container joined in
    their order, and [sep.join(collection.get_reverse_iterator())] the
    items joined in reverse order, when the bound on the calls is above
    the number of items.  Neither changes the container, so that doing
    them again, in any order, gives the same strings: each one takes a
    cursor of its own. *)
Theorem join_of_a_container_is_repeatable h w c l sep (f1 f2 f3 : nat) :
  h !! w = Some (WordsCollectionObj c) ->
  h !! c = Some (PyList l) ->
  (length l < f1)%nat -> (length l < f2)%nat -> (length l < f3)%nat ->
  exists h1 h2 h3,
    join_words f1 sep w h = Some (Ok (String.concat sep l), h1)
    /\ join_words_reversed f2 sep w h1 = Some (Ok (String.concat sep (reverse l)), h2)
    /\ join_words f3 sep w h2 = Some (Ok (String.concat sep l), h3)
    /\ h3 !! c = Some (PyList l).
Proof.
  intros Hw Hc H1 H2 H3.
  destruct (join_words_eq h w c l sep f1 Hw Hc H1) as (h1 & E1 & Hw1 & Hc1).
  destruct (join_words_reversed_eq h1 w c l sep f2 Hw1 Hc1 H2) as (h2 & E2 & Hw2 & Hc2).
  destruct (join_words_eq h2 w c l sep f3 Hw2 Hc2 H3) as (h3 & E3 & Hw3 & Hc3).
  by exists h1, h2, h3.
Qed.

(** X13.  A cursor is spent by one traversal: [sep.join(it)] on a new cursor
    returns the items joined, in the order of the cursor, and
    [sep.join(it)] on the same cursor afterwards returns the empty
    string, although the list still holds the items. *)
Theorem join_of_a_cursor_is_single_pass h it c l sep (f1 f2 : nat) :
  h !! c = Some (PyList l) ->
  (length l < f1)%nat -> (1 <= f2)%nat ->
  (h !! it = Some (AlphabeticalOrderIteratorObj c false 0%Z)
   \/ h !! it = Some (CalendarIteratorObj c 0%Z) ->
   exists h1,
     join_cursor f1 sep it h = Some (Ok (String.concat sep l), h1)
     /\ join_cursor f2 sep it h1 = Some (Ok ""%string, h1)
     /\ h1 !! c = Some (PyList l))
  /\ (h !! it = Some (AlphabeticalOrderIteratorObj c true (-1)%Z) ->
      exists h1,
        join_cursor f1 sep it h = Some (Ok (String.concat sep (reverse l)), h1)
        /\ join_cursor f2 sep it h1 = Some (Ok ""%string, h1)
        /\ h1 !! c = Some (PyList l)).
Proof.
  intros Hc H1 H2. split.
  - intros [Hit|Hit]; (assert (it <> c) as Hne by (intros ->; by rewrite Hit in Hc)).
    + eexists. split; [by apply join_cursor_forward|].
      split; [|by rewrite lookup_insert_ne].
      unfold join_cursor.
      rewrite (drain_exhausted _ _ it c (Z.of_nat (length l)) l _ f2
                 (shape_alphabetical false)); try done.
      * apply lookup_insert_eq.
      * by rewrite lookup_insert_ne.
      * apply index_None. lia.
    + eexists. split; [by apply join_cursor_calendar|].
      split; [|by rewrite lookup_insert_ne].
      unfold join_cursor.
      rewrite (drain_exhausted _ _ it c (Z.of_nat (length l)) l _ f2 shape_calendar);
        try done.
      * apply lookup_insert_eq.
      * by rewrite lookup_insert_ne.
      * apply index_None. lia.
  - intros Hit. assert (it <> c) as Hne by (intros ->; by rewrite Hit in Hc).
    eexists. split; [by apply join_cursor_backward|].
    split; [|by rewrite lookup_insert_ne].
    unfold join_cursor.
    rewrite (drain_exhausted _ _ it c (-1 - Z.of_nat (length l))%Z l _ f2
               (shape_alphabetical true)); try done.
    * apply lookup_insert_eq.
    * by rewrite lookup_insert_ne.
    * apply index_None. lia.
Qed.

(** X11.  The first variant of the driver of [test_iterator.py]: a
    container whose list is empty, given the items of a list by
    [add_items] and then joined, returns the items of that list joined
    in their order; the given list is left as it was. *)
Theorem add_items_then_join h w c i li sep (fuel : nat) :
  h !! w = Some (CollectionCalendarDaysObj c) ->
  h !! c = Some (PyList []) ->
  h !! i = Some (PyList li) ->
  (length li < fuel)%nat ->
  exists h1 h2,
    CollectionCalendarDays.add_items w i h = (Ok tt, h1)
    /\ join_days fuel sep w h1 = Some (Ok (String.concat sep li), h2)
    /\ h2 !! c = Some (PyList li)
    /\ h2 !! i = Some (PyList li).
Proof.
  intros Hw Hc Hi Hfuel.
  assert (w <> c) as Hwc by (intros ->; by rewrite Hw in Hc).
  set (h1 := <[c := PyList ([] ++ li)]> h).
  assert (h1 !! w = Some (CollectionCalendarDaysObj c)) as Hw1
    by (by unfold h1; rewrite lookup_insert_ne).
  assert (h1 !! c = Some (PyList li)) as Hc1 by apply lookup_insert_eq.
  assert (fresh (dom h1) <> c) as Hfc by (apply not_eq_sym; by eapply fresh_ne).
  assert (h1 !! i = Some (PyList li)) as Hi1.
  { destruct (decide (i = c)) as [->|Hic]; [done|].
    by unfold h1; rewrite lookup_insert_ne. }
  assert (fresh (dom h1) <> i) as Hfi by (apply not_eq_sym; by eapply fresh_ne).
  eexists h1, _. split; [by apply add_items_extends|].
  split.
  - unfold join_days. rewrite (CollectionCalendarDays_iter_eq _ _ _ Hw1).
    apply join_cursor_calendar; [apply lookup_insert_eq| |done].
    by rewrite lookup_insert_ne.
  - by rewrite insert_insert_eq, !(lookup_insert_ne _ (fresh (dom h1))) by done.
Qed.
End Join.

(** ** The wrapper generator *)

Section CollectGenerator.
Context {A : Type}.
Implicit Types (h : heap A) (l : list A) (c it : loc).
Import collect_generator.

Lemma collect_finished h (m : nat) :
  iterate __next__ m (Finished, h)
    = (replicate m (Raise StopIteration), (Finished, h)).
Proof.
  induction m as [|m IH]; [done|]. rewrite iterate_S. simpl. by rewrite IH.
Qed.

Lemma collect_from_index c l h : forall (n i : nat),
  h !! c = Some (PyList l) ->
  (i + n)%nat = length l ->
  iterate __next__ (S n) (InList c i, h)
    = ((Ok <$> drop i l) ++ [Raise StopIteration], (Finished, h)).
Proof.
  induction n as [|n IH]; intros i Hc Hlen.
  - simpl. unfold list_step. rewrite Hc.
    rewrite (proj2 (lookup_ge_None l i)) by lia. by rewrite drop_ge by lia.
  - assert (is_Some (l !! i)) as [v Hv] by (apply lookup_lt_is_Some; lia).
    rewrite iterate_S. cbn [__next__]. unfold list_step. rewrite Hc, Hv.
    rewrite (IH (S i)) by (done || lia). by rewrite (drop_S _ _ _ Hv).
Qed.

Lemma collect_all c l h :
  h !! c = Some (PyList l) ->
  iterate __next__ (S (length l)) (calendar_generator_collect c, h)
    = ((Ok <$> l) ++ [Raise StopIteration], (Finished, h)).
Proof.
  intros Hc.
  assert (__next__ (calendar_generator_collect c, h) = __next__ (InList c 0, h)) as Hfirst.
  { unfold calendar_generator_collect. simpl. by rewrite Hc. }
  pose proof (collect_from_index c l h (length l) 0%nat Hc eq_refl) as Hall.
  rewrite iterate_S in Hall |- *. by rewrite Hfirst.
Qed.

(** Over a list the generator only reads the heap. *)
Lemma collect_keeps_heap c l h : forall (n : nat) g,
  h !! c = Some (PyList l) ->
  g = Created c \/ (exists i, g = InList c i) \/ g = Finished ->
  (iterate __next__ n (g, h)).2.2 = h.
Proof.
  induction n as [|n IH]; intros g Hc Hg; [done|].
  rewrite iterate_S.
  assert (exists r g', __next__ (g, h) = (r, (g', h))
            /\ ((exists i, g' = InList c i) \/ g' = Finished)) as (r & g' & Hstep & Hg').
  { destruct Hg as [->|[[i ->]| ->]]; simpl; unfold list_step; rewrite ?Hc.
    - destruct (l !! 0%nat); eauto 10.
    - destruct (l !! i); eauto 10.
    - eauto 10. }
  rewrite Hstep. specialize (IH g' Hc (or_intror Hg')).
  by destruct (iterate __next__ n (g', h)) as [rs [g2 h2]].
Qed.

(** A pull that raises leaves the generator finished. *)
Lemma collect_raise_finishes (g g' : generator) h h' (e : exn) :
  __next__ (g, h) = (Raise e, (g', h')) -> g' = Finished.
Proof.
  assert (forall c i, list_step c i h = (Raise e, (g', h')) -> g' = Finished) as Hlist.
  { intros c i. unfold list_step.
    destruct (h !! c) as [[l| | | |]|]; try (by inversion 1).
    destruct (l !! i); by inversion 1. }
  assert (forall it h1, cursor_step it h1 = (Raise e, (g', h')) -> g' = Finished) as Hcur.
  { intros it h1. unfold cursor_step.
    destruct (next it h1) as [[v|e'] h2]; by inversion 1. }
  destruct g as [c|c i|it|]; simpl.
  - destruct (h !! c) as [[l|c'|c' r p|c'|c' p]|] eqn:Hc; eauto.
    + destruct (WordsCollection.__iter__ c h) as [[it|e'] h1]; eauto. by inversion 1.
    + destruct (CollectionCalendarDays.__iter__ c h) as [[it|e'] h1]; eauto. by inversion 1.
    + by inversion 1.
  - eauto.
  - eauto.
  - by inversion 1.
Qed.
End CollectGenerator.

Section CollectGeneratorProperties.
Context {A : Type}.
Implicit Types (h : heap A) (l : list A) (c it : loc).
Import collect_generator.

(** X14.  Over a list that holds [l], [n] pulls of [calendar_generator_collect]
    give the first [n] items of [l] in order and [StopIteration] for
    every pull beyond the last item, for every [n]; the generator
    writes nothing to the heap. *)
Theorem collect_generator_yields_the_list h c l (n : nat) :
  h !! c = Some (PyList l) ->
  (iterate __next__ n (calendar_generator_collect c, h)).1 =
    (Ok <$> take n l) ++ replicate (n - length l) (Raise StopIteration)
  /\ (iterate __next__ n (calendar_generator_collect c, h)).2.2 = h.
Proof.
  intros Hc. split.
  - pose proof (collect_all c l h Hc) as Hall.
    rewrite <- (length_fmap Ok l) in Hall.
    rewrite (iterate_prefix _ _ _ _ _ Hall (collect_finished h) n).
    by rewrite length_fmap, fmap_take.
  - apply (collect_keeps_heap c l); auto.
Qed.

(** X15.  The wrapper generator and a [CalendarIterator] over the same list
    give the same outcomes on any number of pulls. *)
Theorem collect_generator_agrees_with_the_cursor h c it l (n : nat) :
  h !! c = Some (PyList l) ->
  h !! it = Some (CalendarIteratorObj c 0%Z) ->
  (iterate __next__ n (calendar_generator_collect c, h)).1 = (pull next it n h).1.
Proof.
  intros Hc Hit.
  rewrite (pull_forward_any h it c l n (or_intror Hit) Hc).
  pose proof (collect_all c l h Hc) as Hall.
  rewrite <- (length_fmap Ok l) in Hall.
  rewrite (iterate_prefix _ _ _ _ _ Hall (collect_finished h) n).
  by rewrite length_fmap, fmap_take.
Qed.

(** X16.  Once a pull of the wrapper generator has raised, whatever it
    iterates over and whatever was raised, every later pull raises
    [StopIteration] and changes nothing, in every later state of the
    heap: items appended after the end are not produced. *)
Theorem collect_generator_is_finished_for_good (g g' : generator) h h' (e : exn) :
  __next__ (g, h) = (Raise e, (g', h')) ->
  forall (h2 : heap A) (m : nat),
    iterate __next__ m (g', h2) = (replicate m (Raise StopIteration), (g', h2)).
Proof.
  intros Hraise h2 m. rewrite (collect_raise_finishes _ _ _ _ _ Hraise).
  apply collect_finished.
Qed.
End CollectGeneratorProperties.

(** ** The range-bounded generator, further *)

Module GeneratorFurther.
Import datetime calendar_generator GeneratorSpec calendar_driver.
Local Open Scope Z_scope.

Lemma finished_stays (m : nat) :
  iterate __next__ m Finished = (replicate m (Raise StopIteration), Finished).
Proof. induction m as [|m IH]; [done|]. rewrite iterate_S. simpl. by rewrite IH. Qed.

Lemma raise_finishes g g' (e : exn) : __next__ g = (Raise e, g') -> g' = Finished.
Proof.
  destruct g as [s e0|s e0|]; simpl; unfold while_test.
  - destruct (date_le s e0); by inversion 1.
  - destruct (date_add s {| days := 1 |}) as [d|e1]; [|by inversion 1].
    destruct (date_le d e0); by inversion 1.
  - by inversion 1.
Qed.

(** X19.  The range-bounded generator is spent by one traversal.  Once a pull
    has raised, be it [StopIteration] or the [OverflowError] of the
    last day, every later pull raises [StopIteration]. *)
Theorem date_generator_is_finished_for_good g g' (e : exn) (m : nat) :
  __next__ g = (Raise e, g') ->
  iterate __next__ m g' = (replicate m (Raise StopIteration), g').
Proof. intros H. rewrite (raise_finishes _ _ _ H). apply finished_stays. Qed.

(** X18.  For every valid range [start <= end], the pulls give one formatted
    value per day, then what ends the traversal, then [StopIteration]
    for as many further pulls as are made. *)
Theorem date_generator_any_number_of_pulls s e (m : nat) :
  date_valid s -> date_valid e ->
  toordinal s <= toordinal e ->
  iterate __next__ (S (Z.to_nat (toordinal e - toordinal s + 1)) + m)
    (calendar_generator_datetime s e)
  = (formatted_days s e ++ [Raise (end_signal e)] ++ replicate m (Raise StopIteration),
     Finished).
Proof.
  intros Hs He Hle.
  rewrite iterate_add, (GeneratorProps.traversal_eq s e Hs He Hle). simpl.
  by rewrite finished_stays, <- app_assoc.
Qed.

Lemma comprehension_eq s : forall (len : nat) (k : Z),
  0 < toordinal s + k ->
  toordinal s + k + Z.of_nat len - 1 <= _MAXORDINAL ->
  comprehension s (seqZ k (Z.of_nat len)) =
    Ok ((fun o => strftime (day o) "%d %B") <$> seqZ (toordinal s + k) (Z.of_nat len)).
Proof.
  induction len as [|len IH]; intros k Hlo Hhi; [done|].
  rewrite !(seqZ_cons _ (Z.of_nat (S len))) by lia.
  replace (Z.pred (Z.of_nat (S len))) with (Z.of_nat len) by lia.
  cbn [comprehension]. unfold date_add. cbn [days].
  destruct (Z.ltb_spec 0 (toordinal s + k)) as [_|?]; [|lia].
  destruct (Z.leb_spec (toordinal s + k) _MAXORDINAL) as [_|?]; [|lia].
  cbn [andb].
  assert (0 < toordinal s + Z.succ k) as H1 by lia.
  assert (toordinal s + Z.succ k + Z.of_nat len - 1 <= _MAXORDINAL) as H2 by lia.
  rewrite (IH (Z.succ k) H1 H2).
  rewrite fmap_cons.
  by replace (toordinal s + Z.succ k) with (Z.succ (toordinal s + k)) by lia.
Qed.


(** X20.  The list of [n] days the driver builds from a first day is the list
    of values the generator produces from that day to the day [n - 1]
    days later, when that day is before the last representable day. *)
Theorem comprehension_agrees_with_the_generator s (n : nat) :
  date_valid s ->
  (1 <= n)%nat ->
  toordinal s + Z.of_nat n - 1 < _MAXORDINAL ->
  exists days,
    collection_calendar_days_datetime s (Z.of_nat n) = Ok days
    /\ length days = n
    /\ iterate __next__ (S n)
         (calendar_generator_datetime s (day (toordinal s + Z.of_nat n - 1)))
       = ((Ok <$> days) ++ [Raise StopIteration], Finished).
Proof.
  intros Hs Hn Hmax. pose proof Hs as [Hs1 Hs2].
  eexists. split.
  { unfold collection_calendar_days_datetime.
    apply (comprehension_eq s n 0); lia. }
  split; [by rewrite length_fmap, length_seqZ, Nat2Z.id|].
  pose proof (GeneratorProps.traversal_eq s (day (toordinal s + Z.of_nat n - 1)) Hs) as Heq.
  cbn [day toordinal] in Heq.
  replace (toordinal s + Z.of_nat n - 1 - toordinal s + 1) with (Z.of_nat n) in Heq by lia.
  rewrite Nat2Z.id in Heq. rewrite Heq.
  - unfold formatted_days, end_signal. cbn [day toordinal].
    destruct (Z.ltb_spec (toordinal s + Z.of_nat n - 1) _MAXORDINAL) as [_|?]; [|lia].
    replace (toordinal s + Z.of_nat n - 1 - toordinal s + 1) with (Z.of_nat n) by lia.
    rewrite Z.add_0_r. by rewrite <- list_fmap_compose.
  - unfold date_valid, day. cbn [toordinal]. lia.
  - lia.
Qed.

End GeneratorFurther.

(** ** The further properties on the drivers' scenario *)

Module FurtherScenarioProps.
Import Scenario FurtherScenario.
Local Open Scope string_scope.
Local Open Scope list_scope.

Lemma forward_cursor_any_number_of_calls_witness :
  (heap_forward !! cursor = Some (AlphabeticalOrderIteratorObj words_list false 0%Z)
   \/ heap_forward !! cursor = Some (CalendarIteratorObj words_list 0%Z))
  /\ heap_forward !! words_list = Some (PyList three)
  /\ (pull next cursor 5 heap_forward).1
     = [Ok "First"; Ok "Second"; Ok "Third"; Raise StopIteration; Raise StopIteration].
Proof.
  assert (heap_forward !! cursor = Some (AlphabeticalOrderIteratorObj words_list false 0%Z)
          \/ heap_forward !! cursor = Some (CalendarIteratorObj words_list 0%Z)) as Hit
    by (left; reflexivity).
  assert (heap_forward !! words_list = Some (PyList three)) as Hc by reflexivity.
  split; [exact Hit|]. split; [exact Hc|].
  exact (forward_cursor_any_number_of_calls heap_forward cursor words_list three 5 Hit Hc).
Defined.

Lemma backward_cursor_any_number_of_calls_witness :
  heap_backward !! cursor = Some (AlphabeticalOrderIteratorObj words_list true (-1)%Z)
  /\ heap_backward !! words_list = Some (PyList three)
  /\ (pull next cursor 2 heap_backward).1 = [Ok "Third"; Ok "Second"].
Proof.
  assert (heap_backward !! cursor
          = Some (AlphabeticalOrderIteratorObj words_list true (-1)%Z)) as Hit by reflexivity.
  assert (heap_backward !! words_list = Some (PyList three)) as Hc by reflexivity.
  split; [exact Hit|]. split; [exact Hc|].
  exact (backward_cursor_any_number_of_calls heap_backward cursor words_list three 2 Hit Hc).
Defined.

Lemma forward_cursor_sees_items_appended_during_traversal_witness :
  heap3 !! words = Some (WordsCollectionObj words_list)
  /\ heap3 !! words_list = Some (PyList three)
  /\ (2 <= length three)%nat
  /\ exists before after,
       (words_forward_with_appends words 2 ["Fourth"]
          (S (length three + length ["Fourth"] - 2)) heap3).1 = Ok (before, after)
       /\ before = Ok <$> take 2 three
       /\ before ++ after = (Ok <$> three ++ ["Fourth"]) ++ [Raise StopIteration].
Proof.
  assert (heap3 !! words = Some (WordsCollectionObj words_list)) as Hw by reflexivity.
  assert (heap3 !! words_list = Some (PyList three)) as Hc by reflexivity.
  assert (2 <= length three)%nat as Hk by (simpl; lia).
  split; [exact Hw|]. split; [exact Hc|]. split; [exact Hk|].
  exact (forward_cursor_sees_items_appended_during_traversal
           heap3 words words_list three 2 ["Fourth"] Hw Hc Hk).
Defined.

Lemma backward_cursor_counts_from_the_current_end_witness :
  heap3 !! words = Some (WordsCollectionObj words_list)
  /\ heap3 !! words_list = Some (PyList three)
  /\ (1 <= length three)%nat
  /\ exists before after,
       (words_backward_with_appends words 1 ["Fourth"; "Fifth"]
          (S (length three + length ["Fourth"; "Fifth"] - 1)) heap3).1 = Ok (before, after)
       /\ before = Ok <$> take 1 (reverse three)
       /\ after = (Ok <$> drop 1 (reverse (three ++ ["Fourth"; "Fifth"])))
                    ++ [Raise StopIteration].
Proof.
  assert (heap3 !! words = Some (WordsCollectionObj words_list)) as Hw by reflexivity.
  assert (heap3 !! words_list = Some (PyList three)) as Hc by reflexivity.
  assert (1 <= length three)%nat as Hk by (simpl; lia).
  split; [exact Hw|]. split; [exact Hc|]. split; [exact Hk|].
  exact (backward_cursor_counts_from_the_current_end
           heap3 words words_list three 1 ["Fourth"; "Fifth"] Hw Hc Hk).
Defined.

Lemma backward_cursor_repeats_an_item_after_append_witness :
  heap3 !! words = Some (WordsCollectionObj words_list)
  /\ heap3 !! words_list = Some (PyList three)
  /\ (1 <= 1 <= length three)%nat
  /\ exists before after v,
       (words_backward_with_appends words 1 ["Fourth"] (S (length three + 1 - 1)) heap3).1
         = Ok (before, after)
       /\ last before = Some (Ok v)
       /\ head after = Some (Ok v)
       /\ three !! (length three - 1)%nat = Some v
       /\ after = (Ok <$> reverse (take (length three + 1 - 1) three))
                    ++ [Raise StopIteration].
Proof.
  assert (heap3 !! words = Some (WordsCollectionObj words_list)) as Hw by reflexivity.
  assert (heap3 !! words_list = Some (PyList three)) as Hc by reflexivity.
  assert (1 <= 1 <= length three)%nat as Hk by (simpl; lia).
  split; [exact Hw|]. split; [exact Hc|]. split; [exact Hk|].
  exact (backward_cursor_repeats_an_item_after_append
           heap3 words words_list three 1 "Fourth" Hw Hc Hk).
Defined.

(** The run behind the last witness, evaluated. *)
Lemma backward_cursor_after_append_on_three_items :
  (words_backward_with_appends words 1 ["Fourth"] 4 heap3).1
  = Ok ([Ok "Third"], [Ok "Third"; Ok "Second"; Ok "First"; Raise StopIteration]).
Proof. reflexivity. Qed.

Lemma container_keeps_the_list_it_is_given_witness :
  heap_caller !! caller_list = Some (PyList three)
  /\ exists w h1 w' h2,
       words_over_list words_defaults caller_list "Fourth" heap_caller = (Ok w, h1)
       /\ days_over_list days_defaults caller_list "Fourth" heap_caller = (Ok w', h2)
       /\ h1 !! caller_list = Some (PyList (three ++ ["Fourth"]))
       /\ h2 !! caller_list = Some (PyList (three ++ ["Fourth"]))
       /\ h1 !! words_list = Some (PyList [])
       /\ h2 !! days_list = Some (PyList []).
Proof.
  assert (heap_caller !! caller_list = Some (PyList three)) as Hl by reflexivity.
  split; [exact Hl|].
  destruct (container_keeps_the_list_it_is_given words_defaults days_defaults
              heap_caller caller_list three "Fourth" Hl)
    as (w & h1 & w' & h2 & H1 & H2 & _ & _ & H5 & H6 & Hrest).
  exists w, h1, w', h2.
  split; [exact H1|]. split; [exact H2|]. split; [exact H5|]. split; [exact H6|].
  split.
  - apply (Hrest words_list (PyList [])); [reflexivity|discriminate].
  - apply (Hrest days_list (PyList [])); [reflexivity|discriminate].
Defined.

Lemma add_items_is_repeated_add_item_witness :
  heap_caller !! days = Some (CollectionCalendarDaysObj days_list)
  /\ heap_caller !! days_list = Some (PyList [])
  /\ heap_caller !! caller_list = Some (PyList three)
  /\ CollectionCalendarDays.add_items days caller_list heap_caller
     = for_each (CollectionCalendarDays.add_item days) three heap_caller.
Proof.
  assert (heap_caller !! days = Some (CollectionCalendarDaysObj days_list)) as Hw
    by reflexivity.
  assert (heap_caller !! days_list = Some (PyList [])) as Hc by reflexivity.
  assert (heap_caller !! caller_list = Some (PyList three)) as Hi by reflexivity.
  split; [exact Hw|]. split; [exact Hc|]. split; [exact Hi|].
  exact (proj1 (add_items_is_repeated_add_item heap_caller days days_list []
                  caller_list three Hw Hc Hi)).
Defined.


Lemma join_of_a_container_is_repeatable_witness :
  heap3 !! words = Some (WordsCollectionObj words_list)
  /\ heap3 !! words_list = Some (PyList three)
  /\ (length three < 4)%nat
  /\ exists h1 h2 h3,
       join_words 4 "; " words heap3 = Some (Ok "First; Second; Third", h1)
       /\ join_words_reversed 4 "; " words h1 = Some (Ok "Third; Second; First", h2)
       /\ join_words 4 "; " words h2 = Some (Ok "First; Second; Third", h3)
       /\ h3 !! words_list = Some (PyList three).
Proof.
  assert (heap3 !! words = Some (WordsCollectionObj words_list)) as Hw by reflexivity.
  assert (heap3 !! words_list = Some (PyList three)) as Hc by reflexivity.
  assert (length three < 4)%nat as Hf by (simpl; lia).
  split; [exact Hw|]. split; [exact Hc|]. split; [exact Hf|].
  exact (join_of_a_container_is_repeatable heap3 words words_list three "; " 4 4 4
           Hw Hc Hf Hf Hf).
Defined.

Lemma join_of_a_cursor_is_single_pass_witness :
  heap_backward !! words_list = Some (PyList three)
  /\ (length three < 4)%nat /\ (1 <= 1)%nat
  /\ heap_backward !! cursor = Some (AlphabeticalOrderIteratorObj words_list true (-1)%Z)
  /\ exists h1,
       join_cursor 4 "; " cursor heap_backward = Some (Ok "Third; Second; First", h1)
       /\ join_cursor 1 "; " cursor h1 = Some (Ok "", h1)
       /\ h1 !! words_list = Some (PyList three).
Proof.
  assert (heap_backward !! words_list = Some (PyList three)) as Hc by reflexivity.
  assert (length three < 4)%nat as Hf by (simpl; lia).
  assert (1 <= 1)%nat as Hf' by lia.
  assert (heap_backward !! cursor
          = Some (AlphabeticalOrderIteratorObj words_list true (-1)%Z)) as Hit by reflexivity.
  split; [exact Hc|]. split; [exact Hf|]. split; [exact Hf'|]. split; [exact Hit|].
  exact (proj2 (join_of_a_cursor_is_single_pass heap_backward cursor words_list three
                  "; " 4 1 Hc Hf Hf') Hit).
Defined.

Lemma add_items_then_join_witness :
  heap_caller !! days = Some (CollectionCalendarDaysObj days_list)
  /\ heap_caller !! days_list = Some (PyList [])
  /\ heap_caller !! caller_list = Some (PyList three)
  /\ (length three < 4)%nat
  /\ exists h1 h2,
       CollectionCalendarDays.add_items days caller_list heap_caller = (Ok tt, h1)
       /\ join_days 4 "; " days h1 = Some (Ok "First; Second; Third", h2)
       /\ h2 !! days_list = Some (PyList three)
       /\ h2 !! caller_list = Some (PyList three).
Proof.
  assert (heap_caller !! days = Some (CollectionCalendarDaysObj days_list)) as Hw
    by reflexivity.
  assert (heap_caller !! days_list = Some (PyList [])) as Hc by reflexivity.
  assert (heap_caller !! caller_list = Some (PyList three)) as Hi by reflexivity.
  assert (length three < 4)%nat as Hf by (simpl; lia).
  split; [exact Hw|]. split; [exact Hc|]. split; [exact Hi|]. split; [exact Hf|].
  exact (add_items_then_join heap_caller days days_list caller_list three "; " 4
           Hw Hc Hi Hf).
Defined.

Lemma collect_generator_yields_the_list_witness :
  heap3 !! words_list = Some (PyList three)
  /\ (iterate collect_generator.__next__ 5
        (collect_generator.calendar_generator_collect words_list, heap3)).1
     = [Ok "First"; Ok "Second"; Ok "Third"; Raise StopIteration; Raise StopIteration].
Proof.
  assert (heap3 !! words_list = Some (PyList three)) as Hc by reflexivity.
  split; [exact Hc|].
  exact (proj1 (collect_generator_yields_the_list heap3 words_list three 5 Hc)).
Defined.

Lemma collect_generator_agrees_with_the_cursor_witness :
  heap_days_cursor !! days_list = Some (PyList three)
  /\ heap_days_cursor !! cursor = Some (CalendarIteratorObj days_list 0%Z)
  /\ (iterate collect_generator.__next__ 5
        (collect_generator.calendar_generator_collect days_list, heap_days_cursor)).1
     = (pull next cursor 5 heap_days_cursor).1.
Proof.
  assert (heap_days_cursor !! days_list = Some (PyList three)) as Hc by reflexivity.
  assert (heap_days_cursor !! cursor = Some (CalendarIteratorObj days_list 0%Z)) as Hit
    by reflexivity.
  split; [exact Hc|]. split; [exact Hit|].
  exact (collect_generator_agrees_with_the_cursor heap_days_cursor days_list cursor
           three 5 Hc Hit).
Defined.

(** The generator spent over the empty list stays spent when the list
    receives an item, where the cursor of C3 returns the item. *)
Lemma collect_generator_is_finished_for_good_witness :
  collect_generator.__next__
    (collect_generator.calendar_generator_collect words_list, heap0)
  = (Raise StopIteration, spent_generator)
  /\ iterate collect_generator.__next__ 2
       (spent_generator.1, (WordsCollection.add_item words "First" heap0).2)
     = ([Raise StopIteration; Raise StopIteration],
        (spent_generator.1, (WordsCollection.add_item words "First" heap0).2)).
Proof.
  assert (collect_generator.__next__
            (collect_generator.calendar_generator_collect words_list, heap0)
          = (Raise StopIteration, (spent_generator.1, spent_generator.2))) as H
    by reflexivity.
  split; [reflexivity|].
  exact (collect_generator_is_finished_for_good _ _ _ _ _ H
           (WordsCollection.add_item words "First" heap0).2 2).
Defined.
End FurtherScenarioProps.

Module GeneratorFurtherScenario.
Import datetime calendar_generator GeneratorSpec calendar_driver GeneratorFurther.
Local Open Scope Z_scope.

Lemma date_generator_is_finished_for_good_witness :
  __next__ (Suspended (day _MAXORDINAL) (day _MAXORDINAL)) = (Raise OverflowError, Finished)
  /\ iterate __next__ 3 Finished
     = ([Raise StopIteration; Raise StopIteration; Raise StopIteration], Finished).
Proof.
  assert (__next__ (Suspended (day _MAXORDINAL) (day _MAXORDINAL))
          = (Raise OverflowError, Finished)) as H by reflexivity.
  split; [exact H|].
  exact (date_generator_is_finished_for_good _ _ _ 3 H).
Defined.

Lemma date_generator_any_number_of_pulls_witness :
  date_valid (day 738764)
  /\ date_valid (day 738766)
  /\ toordinal (day 738764) <= toordinal (day 738766)
  /\ iterate __next__ (4 + 2) (calendar_generator_datetime (day 738764) (day 738766))
     = ([Ok "01 September"; Ok "02 September"; Ok "03 September";
         Raise StopIteration; Raise StopIteration; Raise StopIteration]%string, Finished).
Proof.
  assert (date_valid (day 738764)) as Hs by (unfold date_valid, _MAXORDINAL; simpl; lia).
  assert (date_valid (day 738766)) as He by (unfold date_valid, _MAXORDINAL; simpl; lia).
  assert (toordinal (day 738764) <= toordinal (day 738766)) as Hle by (simpl; lia).
  split; [exact Hs|]. split; [exact He|]. split; [exact Hle|].
  exact (date_generator_any_number_of_pulls (day 738764) (day 738766) 2 Hs He Hle).
Defined.

(** The driver's list: ten days from 2023-10-01. *)
Lemma comprehension_agrees_with_the_generator_witness :
  date_of 2023 10 1 = Some (day 738794)
  /\ date_valid (day 738794)
  /\ (1 <= 10)%nat
  /\ toordinal (day 738794) + Z.of_nat 10 - 1 < _MAXORDINAL
  /\ exists days,
       collection_calendar_days_datetime (day 738794) (Z.of_nat 10) = Ok days
       /\ length days = 10%nat
       /\ iterate __next__ 11
            (calendar_generator_datetime (day 738794)
               (day (toordinal (day 738794) + Z.of_nat 10 - 1)))
          = ((Ok <$> days) ++ [Raise StopIteration], Finished).
Proof.
  assert (date_valid (day 738794)) as Hs by (unfold date_valid, _MAXORDINAL; simpl; lia).
  assert (1 <= 10)%nat as Hn by lia.
  assert (toordinal (day 738794) + Z.of_nat 10 - 1 < _MAXORDINAL) as Hmax
    by (unfold _MAXORDINAL; simpl; lia).
  split; [reflexivity|]. split; [exact Hs|]. split; [exact Hn|]. split; [exact Hmax|].
  exact (comprehension_agrees_with_the_generator (day 738794) 10 Hs Hn Hmax).
Defined.

Lemma driver_list_of_ten_days :
  collection_calendar_days_datetime (day 738794) 10
  = Ok ["01 October"; "02 October"; "03 October"; "04 October"; "05 October";
        "06 October"; "07 October"; "08 October"; "09 October"; "10 October"]%string.
Proof. reflexivity. Qed.

End GeneratorFurtherScenario.

(** ** Any calls on any cursors *)

Section AnyCursors.
Context {A : Type}.
Implicit Types (h : heap A) (l : list A) (it c : loc).

End AnyCursors.


(** * Properties of the decorator classes *)

Module DecoratorProps.
Import Decorator_Python.
Local Open Scope string_scope.

Lemma length_append (s t : string) :
  String.length (s ++ t) = (String.length s + String.length t)%nat.
Proof. induction s as [|a s IH]; simpl; [done|]. by rewrite IH. Qed.

Lemma append_cancel_r (t : string) : forall s1 s2, s1 ++ t = s2 ++ t -> s1 = s2.
Proof.
  induction s1 as [|a s1 IH]; intros [|b s2] H; simpl in H.
  - done.
  - apply (f_equal String.length) in H. simpl in H.
    rewrite ?length_append in H. simpl in H. lia.
  - apply (f_equal String.length) in H. simpl in H.
    rewrite ?length_append in H. simpl in H. lia.
  - inversion H; subst. f_equal. by apply IH.
Qed.

Lemma format_operation_injective : forall c1 c2,
  format (operation c1) = format (operation c2) -> strip c1 = strip c2.
Proof.
  induction c1 as [| |c1 IH1|c1 IH1|c1 IH1]; intros c2.
  - induction c2 as [| |c2 IH2|c2 IH2|c2 IH2]; simpl; intros H;
      try done; try discriminate H. by apply IH2.
  - induction c2 as [| |c2 IH2|c2 IH2|c2 IH2]; simpl; intros H;
      try done; try discriminate H. by apply IH2.
  - simpl. intros H. by apply IH1.
  - induction c2 as [| |c2 IH2|c2 IH2|c2 IH2]; simpl; intros H;
      try discriminate H.
    + by apply IH2.
    + inversion H as [H']. change (format (operation c1) ++ ")" = format (operation c2) ++ ")") in H'.
      apply append_cancel_r in H'. f_equal. by apply IH1.
  - induction c2 as [| |c2 IH2|c2 IH2|c2 IH2]; simpl; intros H;
      try discriminate H.
    + by apply IH2.
    + inversion H as [H']. change (format (operation c1) ++ ")" = format (operation c2) ++ ")") in H'.
      apply append_cancel_r in H'. f_equal. by apply IH1.
Qed.

(** X22.  The result of [operation], and so what [client_code] prints,
    records the whole stack of wrappers: two components with the same
    result are the same component once the base [Decorator] wrappers,
    which pass the result of what they wrap unchanged, are left out.  In
    particular the result is [None] only for the base [Component],
    wrapped in base [Decorator]s or not. *)
Theorem operation_records_the_wrappers (c1 c2 : component) :
  (operation c1 = operation c2 -> strip c1 = strip c2)
  /\ (client_code c1 = client_code c2 -> strip c1 = strip c2)
  /\ (operation c1 = None <-> strip c1 = Component)
  /\ operation (strip c1) = operation c1.
Proof.
  assert (forall c, operation (strip c) = operation c) as Hstrip.
  { induction c as [| |c IH|c IH|c IH]; simpl; try done; by rewrite IH. }
  split; [|split; [|split]].
  - intros H. apply format_operation_injective. by rewrite H.
  - unfold client_code. intros H. apply format_operation_injective.
    by inversion H.
  - split.
    + intros H. apply (format_operation_injective c1 Component). by rewrite H.
    + intros H. by rewrite <- Hstrip, H.
  - apply Hstrip.
Qed.
End DecoratorProps.

Lemma operation_records_the_wrappers_witness :
  let c1 := Decorator_Python.ConcreteDecoratorB
              (Decorator_Python.Decorator
                 (Decorator_Python.ConcreteDecoratorA Decorator_Python.ConcreteComponent)) in
  let c2 := Decorator_Python.Decorator
              (Decorator_Python.ConcreteDecoratorB
                 (Decorator_Python.ConcreteDecoratorA Decorator_Python.ConcreteComponent)) in
  Decorator_Python.operation c1
    = Some "ConcreteDecoratorB(ConcreteDecoratorA(ConcreteComponent))"%string
  /\ Decorator_Python.operation c1 = Decorator_Python.operation c2
  /\ Decorator_Python.strip c1 = Decorator_Python.strip c2.
Proof.
  intros c1 c2.
  assert (Decorator_Python.operation c1 = Decorator_Python.operation c2) as H
    by reflexivity.
  split; [reflexivity|]. split; [exact H|].
  exact (proj1 (DecoratorProps.operation_records_the_wrappers c1 c2) H).
Defined.
